(** * Control panels of the Kalshi trading bot

    A shallow embedding of the React event handlers that drive the bot's
    status record, the strategy list and the settings forms:

    - [telegram_webapp]  pages/Trading   (bot control, mobile)
    - [telegram_webapp]  pages/Settings  (settings form, mobile)
    - [desktop_admin_panel] pages/TradingControl.jsx (bot control and settings)
    - [desktop_admin_panel] pages/Strategies.jsx     (strategy list)
    - [desktop_admin_panel] components/Sidebar.jsx   (status label)

    A handler is a computation over the component's state and the list of
    toasts shown so far; [await]ed timers always resolve, the clock reading
    used for [lastUpdate] is an argument. *)

From Stdlib Require Import String List ZArith QArith Bool Lia.
Import ListNotations.

Local Open Scope string_scope.
Local Open Scope Z_scope.

(* ================================================================== *)
(** ** Effects of an event handler *)
(* ================================================================== *)

(** [toast.success(msg)] and [toast.error(msg)] of the sonner library. *)
Inductive Toast : Type :=
| ToastSuccess (msg : string)
| ToastError (msg : string).

Definition isErrorToast (t : Toast) : bool :=
  match t with
  | ToastError _ => true
  | ToastSuccess _ => false
  end.

(** How a block of statements ends: normally, or with a thrown error. *)
Inductive Completion (A : Type) : Type :=
| Normal (a : A)
| Thrown (error : string).
Arguments Normal {A} a.
Arguments Thrown {A} error.

(** The component state of type [S] together with the toasts emitted. *)
Record World (S : Type) : Type := mkWorld {
  state : S;
  toasts : list Toast
}.
Arguments mkWorld {S} state toasts.
Arguments state {S} w.
Arguments toasts {S} w.

Definition Eff (S A : Type) : Type := World S -> World S * Completion A.

Definition ret {S A} (a : A) : Eff S A := fun w => (w, Normal a).

Definition bind {S A B} (c : Eff S A) (k : A -> Eff S B) : Eff S B :=
  fun w =>
    match c w with
    | (w', Normal a) => k a w'
    | (w', Thrown e) => (w', Thrown e)
    end.

Definition throw {S A} (e : string) : Eff S A := fun w => (w, Thrown e).

(** A React state setter called with an updater function. *)
Definition modify {S} (f : S -> S) : Eff S unit :=
  fun w => (mkWorld (f (state w)) (toasts w), Normal tt).

Definition toast {S} (t : Toast) : Eff S unit :=
  fun w => (mkWorld (state w) (toasts w ++ [t])%list, Normal tt).

Definition toast_success {S} (msg : string) : Eff S unit := toast (ToastSuccess msg).
Definition toast_error {S} (msg : string) : Eff S unit := toast (ToastError msg).

(** [await new Promise(resolve => setTimeout(resolve, ms))]: the promise is
    only ever resolved, so the wait completes normally. *)
Definition sleep {S} (ms : Z) : Eff S unit := ret tt.

(** [try { body } catch (error) { handler } finally { final }].  Effects of
    [body] made before a throw persist. *)
Definition try_catch_finally {S}
    (body : Eff S unit) (handler : string -> Eff S unit) (final : Eff S unit)
  : Eff S unit :=
  fun w =>
    let '(w1, r1) := body w in
    let '(w2, r2) :=
      match r1 with
      | Normal _ => (w1, Normal tt)
      | Thrown e => handler e w1
      end in
    let '(w3, r3) := final w2 in
    match r3 with
    | Normal _ => (w3, r2)
    | Thrown e => (w3, Thrown e)
    end.

Module EffNotations.
Notation "c1 ;; c2" := (bind c1 (fun _ => c2))
  (at level 61, right associativity).
Notation "x <- c1 ;; c2" := (bind c1 (fun x => c2))
  (at level 61, c1 at next level, right associativity).
End EffNotations.
Import EffNotations.

(* ================================================================== *)
(** ** The bot status record (App.jsx) *)
(* ================================================================== *)

Record BotStatus : Type := mkBotStatus {
  isRunning : bool;
  isTradingEnabled : bool;
  lastUpdate : option string   (* [null] or an ISO timestamp *)
}.

(** [useState({ isRunning: false, isTradingEnabled: false, lastUpdate: null })] *)
Definition initialBotStatus : BotStatus :=
  {| isRunning := false; isTradingEnabled := false; lastUpdate := None |}.

(** desktop App.jsx, [fetchBotStatus]: the status poll is simulated with
    two draws of [Math.random()], here [random1] and [random2]. *)
Definition fetchBotStatus (random1 random2 : Q) (now : string) : BotStatus :=
  {| isRunning := negb (Qle_bool random1 (3 # 10));
     isTradingEnabled := negb (Qle_bool random2 (5 # 10));
     lastUpdate := Some now |}.

(** Sidebar.jsx, [getStatusText]. *)
Definition getStatusText (botStatus : BotStatus) : string :=
  if negb (isRunning botStatus) then "Stopped"
  else if negb (isTradingEnabled botStatus) then "Monitoring"
  else "Trading".

(** Sidebar.jsx, [getStatusColor]. *)
Definition getStatusColor (botStatus : BotStatus) : string :=
  if negb (isRunning botStatus) then "bg-red-500"
  else if negb (isTradingEnabled botStatus) then "bg-yellow-500"
  else "bg-green-500".

(** The lucide icons the sidebar chooses from. *)
Inductive StatusIcon : Type := AlertTriangle | Pause | Activity.

(** Sidebar.jsx, [getStatusIcon]. *)
Definition getStatusIcon (botStatus : BotStatus) : StatusIcon :=
  if negb (isRunning botStatus) then AlertTriangle
  else if negb (isTradingEnabled botStatus) then Pause
  else Activity.

(** Sidebar.jsx, the [variant] of the status badge. *)
Definition sidebarBadgeVariant (botStatus : BotStatus) : string :=
  if isRunning botStatus
  then (if isTradingEnabled botStatus then "default" else "secondary")
  else "destructive".

(** TradingControl.jsx, page header: the text of the first badge, and the
    second badge, rendered only when [botStatus.isTradingEnabled]. *)
Definition headerStatusText (botStatus : BotStatus) : string :=
  if isRunning botStatus then "Running" else "Stopped".

Definition headerTradingBadge (botStatus : BotStatus) : option string :=
  if isTradingEnabled botStatus then Some "Trading Active" else None.

(* ================================================================== *)
(** ** Bot control handlers (pages/Trading and pages/TradingControl.jsx) *)
(* ================================================================== *)

(** State seen by a control page: the App's [botStatus] (reached through
    the [setBotStatus] prop), the page's [isLoading] flag, and whatever
    other state [X] the page keeps. *)
Record Panel (X : Type) : Type := mkPanel {
  botStatus : BotStatus;
  isLoading : bool;
  extra : X
}.
Arguments mkPanel {X} botStatus isLoading extra.
Arguments botStatus {X} p.
Arguments isLoading {X} p.
Arguments extra {X} p.

(** The two pages run the same handlers and differ in the simulated
    delays and in the wording of the toasts. *)
Record PageText : Type := mkPageText {
  startDelay : Z;      startedMsg : string;    startFailedMsg : string;
  stopDelay : Z;       stoppedMsg : string;    stopFailedMsg : string;
  toggleDelay : Z;     mustRunMsg : string;    toggleFailedMsg : string;
  emergencyDelay : Z;  emergencyMsg : string;  emergencyFailedMsg : string
}.

(** telegram_webapp, pages/Trading *)
Definition Trading_text : PageText :=
  {| startDelay := 1500; startedMsg := "Trading bot started";
     startFailedMsg := "Failed to start bot";
     stopDelay := 1000; stoppedMsg := "Trading bot stopped";
     stopFailedMsg := "Failed to stop bot";
     toggleDelay := 800; mustRunMsg := "Bot must be running first";
     toggleFailedMsg := "Failed to toggle trading";
     emergencyDelay := 500; emergencyMsg := "Emergency stop activated";
     emergencyFailedMsg := "Failed to execute emergency stop" |}.

(** desktop_admin_panel, pages/TradingControl.jsx *)
Definition TradingControl_text : PageText :=
  {| startDelay := 2000; startedMsg := "Trading bot started successfully";
     startFailedMsg := "Failed to start trading bot";
     stopDelay := 1500; stoppedMsg := "Trading bot stopped successfully";
     stopFailedMsg := "Failed to stop trading bot";
     toggleDelay := 1000; mustRunMsg := "Bot must be running to enable trading";
     toggleFailedMsg := "Failed to toggle trading";
     emergencyDelay := 500;
     emergencyMsg := "Emergency stop activated - All trading halted";
     emergencyFailedMsg := "Failed to execute emergency stop" |}.

Section ControlHandlers.
Context {X : Type}.
Variable text : PageText.

Definition setIsLoading (b : bool) : Eff (Panel X) unit :=
  modify (fun p => mkPanel (botStatus p) b (extra p)).

Definition setBotStatus (f : BotStatus -> BotStatus) : Eff (Panel X) unit :=
  modify (fun p => mkPanel (f (botStatus p)) (isLoading p) (extra p)).

(** [now] stands for [new Date().toISOString()]. *)
Definition handleStartBot (now : string) : Eff (Panel X) unit :=
  setIsLoading true ;;
  try_catch_finally
    (sleep (startDelay text) ;;
     setBotStatus (fun prev =>
       {| isRunning := true;
          isTradingEnabled := isTradingEnabled prev;
          lastUpdate := Some now |}) ;;
     toast_success (startedMsg text))
    (fun error => toast_error (startFailedMsg text))
    (setIsLoading false).

Definition handleStopBot (now : string) : Eff (Panel X) unit :=
  setIsLoading true ;;
  try_catch_finally
    (sleep (stopDelay text) ;;
     setBotStatus (fun prev =>
       {| isRunning := false;
          isTradingEnabled := false;
          lastUpdate := Some now |}) ;;
     toast_success (stoppedMsg text))
    (fun error => toast_error (stopFailedMsg text))
    (setIsLoading false).

(** [botStatus] is the prop the component was rendered with; the
    updater works on [prev], the status at the time it is applied. *)
Definition handleToggleTrading (botStatus : BotStatus) (now : string)
  : Eff (Panel X) unit :=
  if negb (isRunning botStatus) then
    toast_error (mustRunMsg text)
  else
    setIsLoading true ;;
    try_catch_finally
      (sleep (toggleDelay text) ;;
       setBotStatus (fun prev =>
         {| isRunning := isRunning prev;
            isTradingEnabled := negb (isTradingEnabled prev);
            lastUpdate := Some now |}) ;;
       toast_success
         ("Trading " ++
          (if negb (isTradingEnabled botStatus) then "enabled" else "disabled")))
      (fun error => toast_error (toggleFailedMsg text))
      (setIsLoading false).

Definition handleEmergencyStop (now : string) : Eff (Panel X) unit :=
  setIsLoading true ;;
  try_catch_finally
    (sleep (emergencyDelay text) ;;
     setBotStatus (fun prev =>
       {| isRunning := false;
          isTradingEnabled := false;
          lastUpdate := Some now |}) ;;
     toast_error (emergencyMsg text))
    (fun error => toast_error (emergencyFailedMsg text))
    (setIsLoading false).

(** The four controls of the page. *)
Inductive Control : Type := Start | Stop | ToggleTrading | EmergencyStop.

Definition handlerOf (c : Control) (botStatus : BotStatus) (now : string)
  : Eff (Panel X) unit :=
  match c with
  | Start => handleStartBot now
  | Stop => handleStopBot now
  | ToggleTrading => handleToggleTrading botStatus now
  | EmergencyStop => handleEmergencyStop now
  end.

(** Invoking a control on a page rendered from the current state: the
    handler's [botStatus] prop is the current status. *)
Definition invoke (c : Control) (now : string) (w : World (Panel X))
  : World (Panel X) * Completion unit :=
  handlerOf c (botStatus (state w)) now w.

Definition after (c : Control) (now : string) (w : World (Panel X))
  : World (Panel X) :=
  fst (invoke c now w).

(** A sequence of controls, each with the clock reading of its update,
    invoked one after the other: every handler has finished before the next
    control is pressed, so each page is rendered from the current status. *)
Fixpoint run (cs : list (Control * string)) (w : World (Panel X))
  : World (Panel X) :=
  match cs with
  | [] => w
  | (c, now) :: cs' => run cs' (after c now w)
  end.

(** [disabled] attributes of the buttons and of the trading switch. *)
Definition startDisabled (p : Panel X) : bool :=
  isRunning (botStatus p) || isLoading p.
Definition stopDisabled (p : Panel X) : bool :=
  negb (isRunning (botStatus p)) || isLoading p.
Definition toggleDisabled (p : Panel X) : bool :=
  negb (isRunning (botStatus p)) || isLoading p.
Definition emergencyDisabled (p : Panel X) : bool :=
  isLoading p.

End ControlHandlers.

Arguments Control : clear implicits.

(** The status a control leaves behind. *)
Definition statusAfter {X} (text : PageText) (c : Control) (now : string)
    (w : World (Panel X)) : BotStatus :=
  botStatus (state (after text c now w)).

(** The mobile App mounts the page on the initial status, not loading. *)
Definition initialWorld {X} (x : X) : World (Panel X) :=
  mkWorld (mkPanel initialBotStatus false x) [].

(** A control can be pressed when its button, or the switch, is not
    [disabled]. *)
Definition offered {X} (c : Control) (p : Panel X) : bool :=
  negb
    (match c with
     | Start => startDisabled p
     | Stop => stopDisabled p
     | ToggleTrading => toggleDisabled p
     | EmergencyStop => emergencyDisabled p
     end).

(** A sequence of presses, each on a control that is enabled when its turn
    comes; [None] when one of them is disabled at that moment. *)
Fixpoint runOffered {X} (text : PageText) (cs : list (Control * string))
    (w : World (Panel X)) : option (World (Panel X)) :=
  match cs with
  | [] => Some w
  | (c, now) :: cs' =>
      if offered c (state w) then runOffered text cs' (after text c now w)
      else None
  end.

(** One handler taking effect on the status.  While a handler waits for
    its timer, the page can be left and entered again ([isLoading] belongs
    to the mounted page, [botStatus] to the App), and another control can
    be pressed before the first has taken effect.  The status the page was
    [rendered] with when a control was pressed may then no longer be the
    current one when its update is applied.  As far as [botStatus] goes,
    handlers overlapping in this way amount to a sequence of such
    landings, in the order in which the updates are applied. *)
Definition landed {X} (text : PageText) (c : Control) (rendered : BotStatus)
    (now : string) (w : World (Panel X)) : World (Panel X) :=
  fst (handlerOf text c rendered now w).

Fixpoint runOverlapping {X} (text : PageText)
    (ls : list (Control * BotStatus * string)) (w : World (Panel X))
  : World (Panel X) :=
  match ls with
  | [] => w
  | (c, rendered, now) :: ls' => runOverlapping text ls' (landed text c rendered now w)
  end.

(** desktop App.jsx: one round of the status poll.  [setBotStatus] is given
    the new object, not an updater; the [catch] clause only logs. *)
Definition pollBotStatus {X} (random1 random2 : Q) (now : string)
  : Eff (Panel X) unit :=
  try_catch_finally
    (setBotStatus (fun _ => fetchBotStatus random1 random2 now))
    (fun error => ret tt)
    (ret tt).

(** What happens to the desktop page: the operator presses a control, or
    the 30 second timer polls. *)
Inductive AppEvent : Type :=
| Press (c : Control) (now : string)
| Poll (random1 random2 : Q) (now : string).

Definition afterEvent {X} (text : PageText) (e : AppEvent)
    (w : World (Panel X)) : World (Panel X) :=
  match e with
  | Press c now => after text c now w
  | Poll random1 random2 now => fst (pollBotStatus random1 random2 now w)
  end.

Fixpoint runApp {X} (text : PageText) (es : list AppEvent)
    (w : World (Panel X)) : World (Panel X) :=
  match es with
  | [] => w
  | e :: es' => runApp text es' (afterEvent text e w)
  end.

(* ================================================================== *)
(** ** Settings forms *)
(* ================================================================== *)

(** What [parseInt(e.target.value)] yields for a number input: an integer,
    or [NaN] when the field holds no number. *)
Inductive JsNumber : Type :=
| Num (z : Z)
| NaN.

(** [min <= v <= max] for the [min]/[max] attributes of an input. *)
Definition withinAttrs (min max : Z) (v : JsNumber) : bool :=
  match v with
  | Num z => (min <=? z) && (z <=? max)
  | NaN => false
  end.

Definition withinSlider (min max v : Z) : bool := (min <=? v) && (v <=? max).

(** *** desktop_admin_panel, pages/TradingControl.jsx *)
Module TradingControl.

Record TradingSettings : Type := mkTradingSettings {
  maxPositionSize : Z;
  riskLevel : string;
  tradingInterval : JsNumber;
  enableSentimentStrategy : bool;
  enableArbitrageStrategy : bool;
  minConfidence : Q;
  maxDailyTrades : JsNumber;
  stopLossEnabled : bool;
  stopLossPercentage : Z
}.

Record EmergencySettings : Type := mkEmergencySettings {
  emergencyStopEnabled : bool;
  maxDailyLoss : JsNumber;
  maxDrawdown : JsNumber
}.

(** The page's state besides [isLoading]. *)
Record Forms : Type := mkForms {
  tradingSettings : TradingSettings;
  emergencySettings : EmergencySettings
}.

Definition initialTradingSettings : TradingSettings :=
  {| maxPositionSize := 10;
     riskLevel := "medium";
     tradingInterval := Num 300;
     enableSentimentStrategy := true;
     enableArbitrageStrategy := true;
     minConfidence := 7 # 10;
     maxDailyTrades := Num 50;
     stopLossEnabled := true;
     stopLossPercentage := 15 |}.

Definition initialEmergencySettings : EmergencySettings :=
  {| emergencyStopEnabled := false;
     maxDailyLoss := Num 500;
     maxDrawdown := Num 20 |}.

Definition initialForms : Forms :=
  {| tradingSettings := initialTradingSettings;
     emergencySettings := initialEmergencySettings |}.

Definition setTradingSettings (f : TradingSettings -> TradingSettings)
  : Eff (Panel Forms) unit :=
  modify (fun p =>
    mkPanel (botStatus p) (isLoading p)
      (mkForms (f (tradingSettings (extra p))) (emergencySettings (extra p)))).

Definition setEmergencySettings (f : EmergencySettings -> EmergencySettings)
  : Eff (Panel Forms) unit :=
  modify (fun p =>
    mkPanel (botStatus p) (isLoading p)
      (mkForms (tradingSettings (extra p)) (f (emergencySettings (extra p))))).

(** [onChange] of the number inputs; [value] is [parseInt(e.target.value)]. *)
Definition onTradingIntervalChange (value : JsNumber) : Eff (Panel Forms) unit :=
  setTradingSettings (fun prev =>
    mkTradingSettings (maxPositionSize prev) (riskLevel prev) value
      (enableSentimentStrategy prev) (enableArbitrageStrategy prev)
      (minConfidence prev) (maxDailyTrades prev)
      (stopLossEnabled prev) (stopLossPercentage prev)).

Definition onMaxDailyTradesChange (value : JsNumber) : Eff (Panel Forms) unit :=
  setTradingSettings (fun prev =>
    mkTradingSettings (maxPositionSize prev) (riskLevel prev) (tradingInterval prev)
      (enableSentimentStrategy prev) (enableArbitrageStrategy prev)
      (minConfidence prev) value
      (stopLossEnabled prev) (stopLossPercentage prev)).

Definition onMaxDailyLossChange (value : JsNumber) : Eff (Panel Forms) unit :=
  setEmergencySettings (fun prev =>
    mkEmergencySettings (emergencyStopEnabled prev) value (maxDrawdown prev)).

Definition onMaxDrawdownChange (value : JsNumber) : Eff (Panel Forms) unit :=
  setEmergencySettings (fun prev =>
    mkEmergencySettings (emergencyStopEnabled prev) (maxDailyLoss prev) value).

(** The limits the form itself declares: [min]/[max] of every slider and
    number input of the Settings card. *)
Definition withinDeclaredLimits (f : Forms) : bool :=
  let t := tradingSettings f in
  let e := emergencySettings f in
  withinSlider 1 25 (maxPositionSize t)
  && withinAttrs 60 3600 (tradingInterval t)
  && (Qle_bool (50 # 100) (minConfidence t) && Qle_bool (minConfidence t) (100 # 100))
  && withinAttrs 1 200 (maxDailyTrades t)
  && withinSlider 5 50 (stopLossPercentage t)
  && withinAttrs 100 5000 (maxDailyLoss e)
  && withinAttrs 5 50 (maxDrawdown e).

Definition handleSaveSettings : Eff (Panel Forms) unit :=
  setIsLoading true ;;
  try_catch_finally
    (sleep 1000 ;;
     toast_success "Settings saved successfully")
    (fun error => toast_error "Failed to save settings")
    (setIsLoading false).

End TradingControl.

(** *** telegram_webapp, pages/Settings *)
Module Settings.

Record Notifications : Type := mkNotifications {
  trades : bool;
  alerts : bool;
  dailyReport : bool;
  marketUpdates : bool
}.

Record RiskSettings : Type := mkRiskSettings {
  maxPositionSize : Z;
  stopLossEnabled : bool;
  stopLossPercentage : Z;
  maxDailyTrades : JsNumber
}.

Record TelegramSettings : Type := mkTelegramSettings {
  hapticFeedback : bool;
  compactMode : bool;
  darkTheme : bool
}.

Record Page : Type := mkPage {
  notifications : Notifications;
  riskSettings : RiskSettings;
  telegramSettings : TelegramSettings
}.

Definition initialPage : Page :=
  {| notifications :=
       {| trades := true; alerts := true;
          dailyReport := false; marketUpdates := true |};
     riskSettings :=
       {| maxPositionSize := 10; stopLossEnabled := true;
          stopLossPercentage := 15; maxDailyTrades := Num 50 |};
     telegramSettings :=
       {| hapticFeedback := true; compactMode := false; darkTheme := true |} |}.

Definition setRiskSettings (f : RiskSettings -> RiskSettings) : Eff Page unit :=
  modify (fun p => mkPage (notifications p) (f (riskSettings p)) (telegramSettings p)).

(** [onChange] of the Max Daily Trades input; [value] is
    [parseInt(e.target.value)]. *)
Definition onMaxDailyTradesChange (value : JsNumber) : Eff Page unit :=
  setRiskSettings (fun prev =>
    mkRiskSettings (maxPositionSize prev) (stopLossEnabled prev)
      (stopLossPercentage prev) value).

Definition withinDeclaredLimits (p : Page) : bool :=
  let r := riskSettings p in
  withinSlider 1 25 (maxPositionSize r)
  && withinSlider 5 50 (stopLossPercentage r)
  && withinAttrs 1 200 (maxDailyTrades r).

Definition handleSaveSettings : Eff Page unit :=
  toast_success "Settings saved successfully".

End Settings.

(* ================================================================== *)
(** ** Integer-valued JavaScript numbers *)
(* ================================================================== *)

(** A JavaScript number is a binary64 floating-point number.  For an
    integer [z], [toBinary64 z] is the binary64 number nearest to [z], ties
    going to the even significand: an integer below 2^53 in magnitude is
    kept as it is, a larger one is rounded to 53 significant bits. *)
Definition toBinary64 (z : Z) : Z :=
  let a := Z.abs z in
  if a <? 2 ^ 53 then z
  else
    let e := Z.log2 a - 52 in
    let q := a / 2 ^ e in
    let r := a mod 2 ^ e in
    let half := 2 ^ (e - 1) in
    let q' := if r <? half then q
              else if half <? r then q + 1
              else if Z.even q then q else q + 1 in
    Z.sgn z * (q' * 2 ^ e).

(** The integers that are binary64 numbers. *)
Definition isBinary64 (z : Z) : bool :=
  (toBinary64 z =? z) && (Z.abs z <? 2 ^ 1024).

(* ================================================================== *)
(** ** Strategy list (desktop_admin_panel, pages/Strategies.jsx) *)
(* ================================================================== *)

Module Strategies.

(** [performance] and [settings] are objects whose keys differ from one
    strategy to the other: kept as key/value lists in source order. *)
Definition JsObject : Type := list (string * Q).

Record Strategy : Type := mkStrategy {
  id : string;
  name : string;
  description : string;
  enabled : bool;
  allocation : Z;
  performance : JsObject;
  settings : JsObject
}.

Record Page : Type := mkPage {
  strategies : list Strategy;
  selectedStrategy : string
}.

Definition sentiment : Strategy :=
  {| id := "sentiment";
     name := "Advanced Sentiment Analysis";
     description := "Uses multiple NLP models to analyze market sentiment from news, social media, and financial reports";
     enabled := true;
     allocation := 60;
     performance :=
       [("totalPnL", 1120 # 1); ("winRate", 815 # 10); ("totalTrades", 79 # 1);
        ("avgConfidence", 79 # 100); ("sharpeRatio", 142 # 100)];
     settings :=
       [("minConfidence", 7 # 10); ("sentimentThreshold", 6 # 10);
        ("momentumWindow", 6 # 1); ("volumeThreshold", 15 # 10);
        ("maxCorrelation", 8 # 10)] |}.

Definition arbitrage : Strategy :=
  {| id := "arbitrage";
     name := "Statistical Arbitrage";
     description := "Identifies pricing inefficiencies between correlated markets using statistical analysis";
     enabled := true;
     allocation := 40;
     performance :=
       [("totalPnL", 660 # 1); ("winRate", 923 # 10); ("totalTrades", 26 # 1);
        ("avgCorrelation", 86 # 100); ("sharpeRatio", 218 # 100)];
     settings :=
       [("minCorrelation", 7 # 10); ("zscoreThreshold", 2 # 1);
        ("lookbackDays", 30 # 1); ("minDataPoints", 20 # 1);
        ("maxPositionCorrelation", 8 # 10)] |}.

Definition initialPage : Page :=
  {| strategies := [sentiment; arbitrage]; selectedStrategy := "sentiment" |}.

Definition setStrategies (f : list Strategy -> list Strategy) : Eff Page unit :=
  modify (fun p => mkPage (f (strategies p)) (selectedStrategy p)).

(** The updater of [handleToggleStrategy]:
    [prev.map(s => s.id === strategyId ? { ...s, enabled: !s.enabled } : s)] *)
Definition toggleStrategy (strategyId : string) (prev : list Strategy)
  : list Strategy :=
  map (fun strategy =>
         if (id strategy =? strategyId)%string
         then mkStrategy (id strategy) (name strategy) (description strategy)
                (negb (enabled strategy))
                (allocation strategy) (performance strategy) (settings strategy)
         else strategy)
      prev.

(** [strategies] is the list the component was rendered with.  Reading
    [.name] of a strategy that [find] did not return throws. *)
Definition handleToggleStrategy (strategies : list Strategy) (strategyId : string)
  : Eff Page unit :=
  setStrategies (toggleStrategy strategyId) ;;
  match find (fun s => (id s =? strategyId)%string) strategies with
  | Some strategy =>
      toast_success
        (name strategy ++ " " ++ (if enabled strategy then "disabled" else "enabled"))
  | None => throw "TypeError: Cannot read properties of undefined (reading 'name')"
  end.

(** The updater of [handleAllocationChange].  [newAllocation] is an
    integer-valued number; [100 - newAllocation] is a floating-point
    subtraction, which yields the binary64 number nearest to the exact
    difference (100 minus a binary64 number never overflows). *)
Definition changeAllocation (strategyId : string) (newAllocation : Z)
    (prev : list Strategy) : list Strategy :=
  let otherStrategy := find (fun s => negb (id s =? strategyId)%string) prev in
  let remainingAllocation := toBinary64 (100 - newAllocation) in
  map (fun strategy =>
         if (id strategy =? strategyId)%string
         then mkStrategy (id strategy) (name strategy) (description strategy)
                (enabled strategy)
                newAllocation (performance strategy) (settings strategy)
         else mkStrategy (id strategy) (name strategy) (description strategy)
                (enabled strategy)
                remainingAllocation (performance strategy) (settings strategy))
      prev.

Definition handleAllocationChange (strategyId : string) (newAllocation : Z)
  : Eff Page unit :=
  setStrategies (changeAllocation strategyId newAllocation).

(** Sum of the allocation percentages shown on the cards, as an exact
    sum of the numbers stored. *)
Definition totalAllocation (l : list Strategy) : Z :=
  fold_right (fun s acc => allocation s + acc) 0 l.

(** Invoking a handler on the page as rendered from the current state. *)
Definition afterToggle (strategyId : string) (w : World Page) : World Page :=
  fst (handleToggleStrategy (strategies (state w)) strategyId w).

Definition afterAllocationChange (strategyId : string) (newAllocation : Z)
    (w : World Page) : World Page :=
  fst (handleAllocationChange strategyId newAllocation w).

(** [o[key]] on a settings object; [None] is [undefined]. *)
Fixpoint getKey (o : JsObject) (key : string) : option Q :=
  match o with
  | [] => None
  | (k, v) :: o' => if (k =? key)%string then Some v else getKey o' key
  end.

(** [{ ...o, [key]: value }]: an existing key keeps its place and takes
    the new value, a new key goes last. *)
Fixpoint setKey (o : JsObject) (key : string) (value : Q) : JsObject :=
  match o with
  | [] => [(key, value)]
  | (k, v) :: o' =>
      if (k =? key)%string then (k, value) :: o'
      else (k, v) :: setKey o' key value
  end.

(** The updater of [handleSettingChange].  [value] is the number handed
    over by the slider or the number input (the [NaN] of an emptied number
    input has no counterpart in [Q]). *)
Definition changeSetting (strategyId setting : string) (value : Q)
    (prev : list Strategy) : list Strategy :=
  map (fun strategy =>
         if (id strategy =? strategyId)%string
         then mkStrategy (id strategy) (name strategy) (description strategy)
                (enabled strategy) (allocation strategy) (performance strategy)
                (setKey (settings strategy) setting value)
         else strategy)
      prev.

Definition handleSettingChange (strategyId setting : string) (value : Q)
  : Eff Page unit :=
  setStrategies (changeSetting strategyId setting value).

Definition saveSettings : Eff Page unit :=
  toast_success "Strategy settings saved successfully".

Definition setSelectedStrategy (strategyId : string) : Eff Page unit :=
  modify (fun p => mkPage (strategies p) strategyId).

(** [strategies.find(s => s.id === selectedStrategy)]; [None] is
    [undefined]. *)
Definition currentStrategy (p : Page) : option Strategy :=
  find (fun s => (id s =? selectedStrategy p)%string) (strategies p).

Definition afterSettingChange (strategyId setting : string) (value : Q)
    (w : World Page) : World Page :=
  fst (handleSettingChange strategyId setting value w).

(** The calls of [handleSettingChange] the Settings tab can make: the
    controls of the sentiment strategy when it is the selected one, those
    of the arbitrage strategy otherwise. *)
Definition offeredSettings (selectedStrategy : string) : list (string * string) :=
  if (selectedStrategy =? "sentiment")%string
  then [("sentiment", "minConfidence"); ("sentiment", "sentimentThreshold");
        ("sentiment", "momentumWindow"); ("sentiment", "volumeThreshold");
        ("sentiment", "maxCorrelation")]
  else [("arbitrage", "minCorrelation"); ("arbitrage", "zscoreThreshold");
        ("arbitrage", "lookbackDays"); ("arbitrage", "minDataPoints");
        ("arbitrage", "maxPositionCorrelation")].

(** What a card shows of a strategy besides its switch, its allocation
    and the values of its settings: identity, texts, performance figures
    and the names of the settings. *)
Definition fixedPart (s : Strategy)
  : string * string * string * JsObject * list string :=
  (id s, name s, description s, performance s, map fst (settings s)).

(** One interaction with the rendered page.  Every card carries a switch,
    an allocation slider ([min] 0, [max] 100, disabled while the strategy
    is off) and a Configure button, all bound to the card's own
    [strategy.id]. *)
Inductive UIStep : World Page -> World Page -> Prop :=
| ui_toggle w s :
    In s (strategies (state w)) ->
    UIStep w (afterToggle (id s) w)
| ui_allocation w s value :
    In s (strategies (state w)) ->
    enabled s = true ->
    0 <= value <= 100 ->
    UIStep w (afterAllocationChange (id s) value w)
| ui_configure w s :
    In s (strategies (state w)) ->
    UIStep w (fst (setSelectedStrategy (id s) w))
| ui_setting w strategyId setting value :
    In (strategyId, setting) (offeredSettings (selectedStrategy (state w))) ->
    UIStep w (afterSettingChange strategyId setting value w)
| ui_save w :
    UIStep w (fst (saveSettings w)).

(** The pages one can get to from the freshly mounted one. *)
Inductive UIReachable : World Page -> Prop :=
| ui_mounted : UIReachable (mkWorld initialPage [])
| ui_then w w' : UIReachable w -> UIStep w w' -> UIReachable w'.

End Strategies.

(* ================================================================== *)
(** ** Properties of the bot control handlers *)
(* ================================================================== *)

Section ControlFacts.
Context {X : Type}.
Variable text : PageText.
Implicit Types (w : World (Panel X)) (now : string).

(** *** What each handler computes *)

Lemma invoke_Start now w :
  invoke text Start now w =
  (mkWorld
     (mkPanel
        (mkBotStatus true (isTradingEnabled (botStatus (state w))) (Some now))
        false (extra (state w)))
     (toasts w ++ [ToastSuccess (startedMsg text)])%list,
   Normal tt).
Proof. reflexivity. Qed.

Lemma invoke_Stop now w :
  invoke text Stop now w =
  (mkWorld
     (mkPanel (mkBotStatus false false (Some now)) false (extra (state w)))
     (toasts w ++ [ToastSuccess (stoppedMsg text)])%list,
   Normal tt).
Proof. reflexivity. Qed.

Lemma invoke_EmergencyStop now w :
  invoke text EmergencyStop now w =
  (mkWorld
     (mkPanel (mkBotStatus false false (Some now)) false (extra (state w)))
     (toasts w ++ [ToastError (emergencyMsg text)])%list,
   Normal tt).
Proof. reflexivity. Qed.

Lemma invoke_Toggle_not_running now w :
  isRunning (botStatus (state w)) = false ->
  invoke text ToggleTrading now w =
  (mkWorld (state w) (toasts w ++ [ToastError (mustRunMsg text)])%list, Normal tt).
Proof.
  intros Hstopped.
  unfold invoke, handlerOf, handleToggleTrading.
  rewrite Hstopped. reflexivity.
Qed.

Lemma invoke_Toggle_running now w :
  isRunning (botStatus (state w)) = true ->
  invoke text ToggleTrading now w =
  (mkWorld
     (mkPanel
        (mkBotStatus true (negb (isTradingEnabled (botStatus (state w)))) (Some now))
        false (extra (state w)))
     (toasts w ++
        [ToastSuccess
           ("Trading " ++
            (if negb (isTradingEnabled (botStatus (state w)))
             then "enabled" else "disabled"))])%list,
   Normal tt).
Proof.
  intros Hrunning.
  unfold invoke, handlerOf, handleToggleTrading.
  rewrite Hrunning. cbn. rewrite Hrunning. reflexivity.
Qed.

(** No handler lets an error escape: the [catch] clauses are total and the
    guard of the toggle does not throw. *)
Lemma invoke_completes (c : Control) now w :
  snd (invoke text c now w) = Normal tt.
Proof.
  destruct c; try reflexivity.
  destruct (isRunning (botStatus (state w))) eqn:Hr.
  - rewrite invoke_Toggle_running by assumption. reflexivity.
  - rewrite invoke_Toggle_not_running by assumption. reflexivity.
Qed.

(** *** Trading is enabled only while running *)

Lemma step_keeps_trading_within_running (c : Control) now w :
  (isTradingEnabled (botStatus (state w)) = true ->
   isRunning (botStatus (state w)) = true) ->
  isTradingEnabled (statusAfter text c now w) = true ->
  isRunning (statusAfter text c now w) = true.
Proof.
  intros Hinv. unfold statusAfter, after.
  destruct c.
  - rewrite invoke_Start. reflexivity.
  - rewrite invoke_Stop. cbn. discriminate.
  - destruct (isRunning (botStatus (state w))) eqn:Hr.
    + rewrite invoke_Toggle_running by assumption. reflexivity.
    + rewrite invoke_Toggle_not_running by assumption. cbn.
      rewrite Hr. exact Hinv.
  - rewrite invoke_EmergencyStop. cbn. discriminate.
Qed.

Lemma run_keeps_trading_within_running (cs : list (Control * string)) :
  forall w,
    (isTradingEnabled (botStatus (state w)) = true ->
     isRunning (botStatus (state w)) = true) ->
    isTradingEnabled (botStatus (state (run text cs w))) = true ->
    isRunning (botStatus (state (run text cs w))) = true.
Proof.
  induction cs as [| [c now] cs IH]; intros w Hinv; cbn [run].
  - exact Hinv.
  - apply IH. apply step_keeps_trading_within_running, Hinv.
Qed.

(** *** Handlers that overlap *)

(** Start apart, no handler sets [isRunning], whatever status its page was
    rendered with. *)
Lemma landed_keeps_stopped (c : Control) (rendered : BotStatus) now w :
  c <> Start ->
  isRunning (botStatus (state w)) = false ->
  isRunning (botStatus (state (landed text c rendered now w))) = false.
Proof.
  intros Hcontrol Hstopped. destruct c.
  - contradiction.
  - reflexivity.
  - unfold landed, handlerOf, handleToggleTrading.
    destruct (isRunning rendered); cbn; exact Hstopped.
  - reflexivity.
Qed.

Lemma runOverlapping_keeps_stopped (ls : list (Control * BotStatus * string)) :
  forall w,
    Forall (fun l => fst (fst l) <> Start) ls ->
    isRunning (botStatus (state w)) = false ->
    isRunning (botStatus (state (runOverlapping text ls w))) = false.
Proof.
  induction ls as [| [[c rendered] now] ls IH]; intros w Hall Hstopped;
    cbn [runOverlapping].
  - exact Hstopped.
  - inversion Hall as [| l ls' Hhead Htail]; subst.
    apply IH; [exact Htail |].
    apply landed_keeps_stopped; [exact Hhead | exact Hstopped].
Qed.

End ControlFacts.

(** The simulated poll of the desktop App is not one of the four controls
    and is not bound by the property above: one draw below 0.3 and one above
    0.5 give a stopped status with trading enabled. *)
Remark simulated_poll_may_enable_trading_while_stopped :
  fetchBotStatus (1 # 10) (9 # 10) "2025-07-01T10:00:30.000Z"
  = mkBotStatus false true (Some "2025-07-01T10:00:30.000Z").
Proof. reflexivity. Qed.

(** *** The four controls, one by one *)

(** C1 (as amended). Whatever the status, the emergency stop completes
    without error, announces itself with its toast and leaves
    [isRunning = false], [isTradingEnabled = false] and a fresh
    [lastUpdate].  That is the very record an ordinary stop leaves at the
    same instant, labelled "Stopped" by the sidebar: the status record has
    no separate emergency state.  From there the Start button is enabled
    once loading is over and Start makes the bot run; stop, trading toggle
    and emergency stop do not, in whatever number, order and overlap they
    take effect.  The simulated status poll of the desktop App, which is
    not a control, overwrites the status with what it draws. *)
Theorem emergency_stop_is_a_stop {X} (text : PageText) (now : string)
    (w : World (Panel X)) :
  snd (invoke text EmergencyStop now w) = Normal tt
  /\ toasts (after text EmergencyStop now w)
     = (toasts w ++ [ToastError (emergencyMsg text)])%list
  /\ statusAfter text EmergencyStop now w = mkBotStatus false false (Some now)
  /\ statusAfter text EmergencyStop now w = statusAfter text Stop now w
  /\ getStatusText (statusAfter text EmergencyStop now w) = "Stopped"
  /\ startDisabled (state (after text EmergencyStop now w)) = false
  /\ (forall later,
        isRunning (statusAfter text Start later (after text EmergencyStop now w))
        = true)
  /\ (forall ls,
        Forall (fun l => fst (fst l) <> Start) ls ->
        isRunning
          (botStatus
             (state (runOverlapping text ls (after text EmergencyStop now w))))
        = false)
  /\ (forall random1 random2 polled,
        botStatus
          (state (afterEvent text (Poll random1 random2 polled)
                    (after text EmergencyStop now w)))
        = fetchBotStatus random1 random2 polled).
Proof.
  repeat split.
  intros ls Hall. apply runOverlapping_keeps_stopped; [exact Hall |].
  reflexivity.
Qed.

(** C2. When the bot is not running, the trading toggle shows an error
    toast and changes nothing: the status record ([isRunning],
    [isTradingEnabled], [lastUpdate]) and the rest of the page state are
    the ones before the call. *)
Theorem toggle_while_stopped_is_refused {X} (text : PageText) (now : string)
    (w : World (Panel X)) :
  isRunning (botStatus (state w)) = false ->
  state (after text ToggleTrading now w) = state w
  /\ statusAfter text ToggleTrading now w = botStatus (state w)
  /\ toasts (after text ToggleTrading now w)
     = (toasts w ++ [ToastError (mustRunMsg text)])%list
  /\ snd (invoke text ToggleTrading now w) = Normal tt.
Proof.
  intros Hstopped. unfold statusAfter, after.
  rewrite invoke_Toggle_not_running by assumption.
  repeat split.
Qed.

(** C3 (as amended). The start handler has no check of its own: in every
    status it completes without error, reports success, sets
    [isRunning = true], keeps [isTradingEnabled] and refreshes
    [lastUpdate].  From the Stopped status (both flags false) this is
    Running(Monitoring).  On a status that is already running it succeeds
    just the same; what keeps the operator from starting twice is the
    Start button, disabled while [isRunning]. *)
Theorem start_always_succeeds {X} (text : PageText) (now : string)
    (w : World (Panel X)) :
  snd (invoke text Start now w) = Normal tt
  /\ toasts (after text Start now w)
     = (toasts w ++ [ToastSuccess (startedMsg text)])%list
  /\ statusAfter text Start now w
     = mkBotStatus true (isTradingEnabled (botStatus (state w))) (Some now)
  /\ getStatusText (statusAfter text Start now w)
     = (if isTradingEnabled (botStatus (state w)) then "Trading" else "Monitoring")
  /\ (forall last loading (x : X) shown,
        statusAfter text Start now
          (mkWorld (mkPanel (mkBotStatus false false last) loading x) shown)
        = mkBotStatus true false (Some now))
  /\ (forall trading last loading (x : X),
        startDisabled (mkPanel (mkBotStatus true trading last) loading x) = true).
Proof.
  repeat split.
  unfold statusAfter, after. rewrite invoke_Start. cbn.
  unfold getStatusText. cbn.
  destruct (isTradingEnabled (botStatus (state w))); reflexivity.
Qed.

(** C4. From every status, and so from Running(Monitoring) and
    Running(Trading) alike, the stop handler completes, reports success and
    leaves [isRunning = false] and [isTradingEnabled = false]: the Stopped
    status. *)
Theorem stop_leaves_stopped {X} (text : PageText) (now : string)
    (w : World (Panel X)) :
  isRunning (statusAfter text Stop now w) = false
  /\ isTradingEnabled (statusAfter text Stop now w) = false
  /\ getStatusText (statusAfter text Stop now w) = "Stopped"
  /\ snd (invoke text Stop now w) = Normal tt
  /\ toasts (after text Stop now w)
     = (toasts w ++ [ToastSuccess (stoppedMsg text)])%list.
Proof.
  repeat split.
Qed.

(** C5. While the bot is running, the trading toggle negates
    [isTradingEnabled] and keeps [isRunning = true]: Monitoring becomes
    Trading and Trading becomes Monitoring, and a second toggle brings the
    original mode back. *)
Theorem toggle_flips_trading_mode {X} (text : PageText) (now now' : string)
    (w : World (Panel X)) :
  isRunning (botStatus (state w)) = true ->
  isRunning (statusAfter text ToggleTrading now w) = true
  /\ isTradingEnabled (statusAfter text ToggleTrading now w)
     = negb (isTradingEnabled (botStatus (state w)))
  /\ getStatusText (statusAfter text ToggleTrading now w)
     = (if isTradingEnabled (botStatus (state w)) then "Monitoring" else "Trading")
  /\ isRunning
       (statusAfter text ToggleTrading now' (after text ToggleTrading now w))
     = true
  /\ isTradingEnabled
       (statusAfter text ToggleTrading now' (after text ToggleTrading now w))
     = isTradingEnabled (botStatus (state w))
  /\ getStatusText
       (statusAfter text ToggleTrading now' (after text ToggleTrading now w))
     = getStatusText (botStatus (state w)).
Proof.
  intros Hrunning.
  assert (Hfirst : after text ToggleTrading now w =
            mkWorld
              (mkPanel
                 (mkBotStatus true
                    (negb (isTradingEnabled (botStatus (state w)))) (Some now))
                 false (extra (state w)))
              (toasts w ++
                 [ToastSuccess
                    ("Trading " ++
                     (if negb (isTradingEnabled (botStatus (state w)))
                      then "enabled" else "disabled"))])%list).
  { unfold after. rewrite invoke_Toggle_running by assumption. reflexivity. }
  unfold statusAfter. rewrite Hfirst.
  unfold after at 1 2 3.
  rewrite invoke_Toggle_running by reflexivity. cbn.
  unfold getStatusText. cbn. rewrite Hrunning.
  destruct (isTradingEnabled (botStatus (state w))); repeat split.
Qed.

(** C8 (the code departs from it). That trading is enabled only while the
    bot is running is what the guard of the trading toggle is there for
    ("Bot must be running ..."), but the guard reads the status the page
    was rendered with.  Start the bot; press Stop; while Stop waits for its
    timer, leave the page, come back and flip the trading switch, which
    the fresh page offers because the status still says running; Stop
    takes effect, then the toggle.  The bot is now stopped with trading
    enabled. *)
Theorem stale_toggle_enables_trading_while_stopped {X} (text : PageText)
    (x : X) (t1 t2 t3 : string) :
  let running := statusAfter text Start t1 (initialWorld x) in
  let w := runOverlapping text
             [(Start, initialBotStatus, t1);
              (Stop, running, t2);
              (ToggleTrading, running, t3)]
             (initialWorld x) in
  toggleDisabled (mkPanel running false x) = false
  /\ botStatus (state w) = mkBotStatus false true (Some t3)
  /\ getStatusText (botStatus (state w)) = "Stopped"
  /\ ~ (isTradingEnabled (botStatus (state w)) = true ->
        isRunning (botStatus (state w)) = true).
Proof.
  cbv zeta. repeat split.
  intros Himplies. specialize (Himplies eq_refl). discriminate Himplies.
Qed.

(** X17. On the mobile app, where the status starts at the initial one and
    nothing but the four controls changes it: when the controls are invoked
    one after the other, every handler having finished before the next
    control is pressed, trading is enabled only if the bot is running,
    after any such sequence. *)
Theorem trading_enabled_only_while_running {X} (text : PageText) (x : X)
    (cs : list (Control * string)) :
  isTradingEnabled (botStatus (state (run text cs (initialWorld x)))) = true ->
  isRunning (botStatus (state (run text cs (initialWorld x)))) = true.
Proof.
  apply run_keeps_trading_within_running.
  cbn. discriminate.
Qed.

(** *** Concrete runs *)

(** Against C1 as first stated: on the mobile page, with the bot running
    and trading, the emergency stop leaves exactly the status an ordinary
    stop leaves, and the sidebar calls it "Stopped". *)
Lemma emergency_stop_not_a_distinct_state :
  let w := mkWorld (mkPanel (mkBotStatus true true None) false tt) [] in
  let now := "2025-07-01T10:00:00.000Z" in
  ~ (statusAfter Trading_text EmergencyStop now w
       <> statusAfter Trading_text Stop now w
     \/ getStatusText (statusAfter Trading_text EmergencyStop now w) <> "Stopped").
Proof.
  cbv zeta. intros [Hdiff | Hlabel].
  - apply Hdiff. reflexivity.
  - apply Hlabel. reflexivity.
Qed.

Lemma toggle_while_stopped_is_refused_witness :
  let w := initialWorld (X := unit) tt in
  isRunning (botStatus (state w)) = false
  /\ state (after Trading_text ToggleTrading "2025-07-01T10:00:00.000Z" w) = state w
  /\ toasts (after Trading_text ToggleTrading "2025-07-01T10:00:00.000Z" w)
     = [ToastError "Bot must be running first"].
Proof.
  cbv zeta. split; [reflexivity |].
  pose proof (toggle_while_stopped_is_refused Trading_text
                "2025-07-01T10:00:00.000Z" (initialWorld tt) eq_refl)
    as (Hstate & _ & Htoasts & _).
  split; [exact Hstate | exact Htoasts].
Defined.

(** Against C3 as first stated: on the desktop page, with the bot already
    running, the start handler does not fail.  It ends normally, its only
    toast is the success message, the failure message of its [catch] clause
    is not shown, and the status is running with a new [lastUpdate]. *)
Lemma start_while_running_succeeds :
  let w := mkWorld
             (mkPanel (mkBotStatus true true (Some "2025-07-01T09:00:00.000Z"))
                false TradingControl.initialForms) [] in
  let now := "2025-07-01T10:00:00.000Z" in
  snd (invoke TradingControl_text Start now w) = Normal tt
  /\ toasts (after TradingControl_text Start now w)
     = [ToastSuccess "Trading bot started successfully"]
  /\ existsb isErrorToast (toasts (after TradingControl_text Start now w)) = false
  /\ statusAfter TradingControl_text Start now w
     = mkBotStatus true true (Some "2025-07-01T10:00:00.000Z").
Proof.
  cbv zeta. repeat split.
Qed.

Lemma toggle_flips_trading_mode_witness :
  let w := mkWorld (mkPanel (mkBotStatus true false None) false tt) [] in
  let w1 := after Trading_text ToggleTrading "2025-07-01T10:00:00.000Z" w in
  let w2 := after Trading_text ToggleTrading "2025-07-01T10:00:05.000Z" w1 in
  isRunning (botStatus (state w)) = true
  /\ getStatusText (botStatus (state w1)) = "Trading"
  /\ getStatusText (botStatus (state w2)) = "Monitoring".
Proof.
  cbv zeta. split; [reflexivity |].
  pose proof (toggle_flips_trading_mode Trading_text
                "2025-07-01T10:00:00.000Z" "2025-07-01T10:00:05.000Z"
                (mkWorld (mkPanel (mkBotStatus true false None) false tt) [])
                eq_refl)
    as (_ & _ & Hone & _ & _ & Htwo).
  split; [exact Hone | exact Htwo].
Defined.

Lemma trading_enabled_only_while_running_witness :
  let cs := [(Start, "2025-07-01T10:00:00.000Z");
             (ToggleTrading, "2025-07-01T10:00:05.000Z")] in
  isTradingEnabled (botStatus (state (run Trading_text cs (initialWorld tt)))) = true
  /\ isRunning (botStatus (state (run Trading_text cs (initialWorld tt)))) = true.
Proof.
  cbv zeta. split; [reflexivity |].
  apply (trading_enabled_only_while_running Trading_text tt
           [(Start, "2025-07-01T10:00:00.000Z");
            (ToggleTrading, "2025-07-01T10:00:05.000Z")]).
  reflexivity.
Defined.

(* ================================================================== *)
(** ** Properties of the settings forms *)
(* ================================================================== *)

(** C6 (as amended). Saving performs no validation at all.  On the desktop
    page and on the mobile page alike, for every content of the form, the
    save handler completes, shows the success toast and no error, and leaves
    every setting as it was entered: nothing is rejected and nothing is
    clamped. *)
Theorem save_settings_accepts_everything
    (w : World (Panel TradingControl.Forms)) (m : World Settings.Page) :
  (snd (TradingControl.handleSaveSettings w) = Normal tt
   /\ toasts (fst (TradingControl.handleSaveSettings w))
      = (toasts w ++ [ToastSuccess "Settings saved successfully"])%list
   /\ extra (state (fst (TradingControl.handleSaveSettings w))) = extra (state w)
   /\ botStatus (state (fst (TradingControl.handleSaveSettings w)))
      = botStatus (state w))
  /\ (snd (Settings.handleSaveSettings m) = Normal tt
      /\ toasts (fst (Settings.handleSaveSettings m))
         = (toasts m ++ [ToastSuccess "Settings saved successfully"])%list
      /\ state (fst (Settings.handleSaveSettings m)) = state m).
Proof.
  repeat split.
Qed.

(** Against C6 as first stated: typing -5 into Max Daily Trades (declared
    range 1 to 200) and pressing Save Settings on the desktop page.  The
    form is outside its declared limits, yet the handler reports success,
    shows no error and keeps the value. *)
Lemma save_accepts_out_of_range_settings :
  let w0 := mkWorld (mkPanel initialBotStatus false TradingControl.initialForms) [] in
  let w1 := fst (TradingControl.onMaxDailyTradesChange (Num (-5)) w0) in
  let w2 := fst (TradingControl.handleSaveSettings w1) in
  TradingControl.withinDeclaredLimits (extra (state w1)) = false
  /\ toasts w2 = [ToastSuccess "Settings saved successfully"]
  /\ existsb isErrorToast (toasts w2) = false
  /\ TradingControl.maxDailyTrades (TradingControl.tradingSettings (extra (state w2)))
     = Num (-5).
Proof.
  cbv zeta. repeat split.
Qed.

(* ================================================================== *)
(** ** Properties of the strategy list *)
(* ================================================================== *)

(** Below 2^53 every integer is a binary64 number: nothing is rounded. *)
Lemma toBinary64_small (z : Z) :
  Z.abs z < 2 ^ 53 -> toBinary64 z = z.
Proof.
  intros Hsmall. unfold toBinary64. cbv zeta.
  destruct (Z.ltb_spec (Z.abs z) (2 ^ 53)) as [_ | Hlarge].
  - reflexivity.
  - exfalso. apply (Z.lt_irrefl (Z.abs z)).
    apply Z.lt_le_trans with (2 ^ 53); assumption.
Qed.

Module StrategiesFacts.
Import Strategies.

Lemma find_by_id (strategyId : string) (l : list Strategy) :
  In strategyId (map id l) ->
  exists s, find (fun s => (id s =? strategyId)%string) l = Some s
            /\ id s = strategyId.
Proof.
  induction l as [| a l IH]; cbn [map In find].
  - intros [].
  - intros Hin.
    destruct (String.eqb_spec (id a) strategyId) as [Heq | Hne].
    + exists a. split; [reflexivity | exact Heq].
    + destruct Hin as [Hhead | Htail]; [contradiction |].
      apply IH, Htail.
Qed.

(** The state after the toggle does not depend on how the toast goes. *)
Lemma afterToggle_state (strategyId : string) (w : World Page) :
  state (afterToggle strategyId w)
  = mkPage (toggleStrategy strategyId (strategies (state w)))
      (selectedStrategy (state w)).
Proof.
  unfold afterToggle, handleToggleStrategy, bind, setStrategies, modify.
  destruct (find _ (strategies (state w))); reflexivity.
Qed.

Lemma toggleStrategy_pointwise (strategyId : string) (l : list Strategy) :
  Forall2
    (fun old new =>
       id new = id old /\ name new = name old
       /\ description new = description old
       /\ allocation new = allocation old
       /\ performance new = performance old
       /\ settings new = settings old
       /\ enabled new
          = (if (id old =? strategyId)%string
             then negb (enabled old) else enabled old)
       /\ (if (id old =? strategyId)%string then True else new = old))
    l (toggleStrategy strategyId l).
Proof.
  unfold toggleStrategy.
  induction l as [| a l IH]; cbn [map]; constructor.
  - destruct (id a =? strategyId)%string; cbn; repeat split.
  - exact IH.
Qed.

Lemma changeAllocation_ids (strategyId : string) (newAllocation : Z)
    (l : list Strategy) :
  map id (changeAllocation strategyId newAllocation l) = map id l.
Proof.
  unfold changeAllocation. cbv zeta.
  induction l as [| a l IH]; cbn [map].
  - reflexivity.
  - rewrite IH. destruct (id a =? strategyId)%string; reflexivity.
Qed.

Lemma afterAllocationChange_state (strategyId : string) (newAllocation : Z)
    (w : World Page) :
  state (afterAllocationChange strategyId newAllocation w)
  = mkPage (changeAllocation strategyId newAllocation (strategies (state w)))
      (selectedStrategy (state w)).
Proof. reflexivity. Qed.

End StrategiesFacts.

(** C9 (as amended). For a list of two strategies with different ids,
    changing the allocation of one of them to an integer value of magnitude
    below 2^53 - 100, which covers every value the 0 to 100 slider can
    pass, gives that strategy the new value and the other one 100 minus
    it, so the two allocations add up to exactly 100. *)
Theorem allocation_change_sums_to_100 (a b : Strategies.Strategy)
    (strategyId : string) (newAllocation : Z)
    (selected : string) (shown : list Toast) :
  Strategies.id a <> Strategies.id b ->
  strategyId = Strategies.id a \/ strategyId = Strategies.id b ->
  Z.abs newAllocation < 2 ^ 53 - 100 ->
  let w := mkWorld (Strategies.mkPage [a; b] selected) shown in
  let after := Strategies.strategies
                 (state (Strategies.afterAllocationChange strategyId newAllocation w)) in
  Strategies.totalAllocation after = 100
  /\ map Strategies.id after = [Strategies.id a; Strategies.id b]
  /\ Forall (fun s =>
       Strategies.allocation s
       = if (Strategies.id s =? strategyId)%string
         then newAllocation else 100 - newAllocation) after.
Proof.
  intros Hdistinct Htarget Hbound. cbv zeta.
  assert (Hba : (Strategies.id b =? Strategies.id a)%string = false).
  { apply String.eqb_neq. intros Heq. apply Hdistinct. symmetry. exact Heq. }
  assert (Hab : (Strategies.id a =? Strategies.id b)%string = false).
  { apply String.eqb_neq. exact Hdistinct. }
  assert (Hexact : toBinary64 (100 - newAllocation) = 100 - newAllocation).
  { apply toBinary64_small.
    change (2 ^ 53) with 9007199254740992 in *. lia. }
  rewrite StrategiesFacts.afterAllocationChange_state.
  cbn [state Strategies.strategies].
  unfold Strategies.changeAllocation. cbv zeta. rewrite Hexact. cbn [map].
  destruct Htarget as [-> | ->];
    rewrite String.eqb_refl, ?Hba, ?Hab;
    cbn -[Z.add Z.sub];
    rewrite ?String.eqb_refl, ?Hba, ?Hab;
    (split; [lia | split; [reflexivity |]]);
    repeat constructor;
    cbn [Strategies.id Strategies.allocation];
    rewrite ?String.eqb_refl, ?Hba, ?Hab; reflexivity.
Qed.

Lemma allocation_change_sums_to_100_witness :
  let after := Strategies.strategies
                 (state (Strategies.afterAllocationChange "arbitrage" 35
                           (mkWorld Strategies.initialPage []))) in
  Strategies.totalAllocation after = 100
  /\ map Strategies.allocation after = [65; 35].
Proof.
  cbv zeta. split; [| reflexivity].
  apply (allocation_change_sums_to_100
           Strategies.sentiment Strategies.arbitrage "arbitrage" 35 "sentiment" []).
  - cbn. discriminate.
  - right. reflexivity.
  - reflexivity.
Defined.

(** Against C9 as first stated: an allocation change of the sentiment
    strategy to 10^17, itself a binary64 number.  The subtraction
    [100 - 1e17] is rounded to 53 significant bits, the arbitrage strategy
    is given -99999999999999904, and the two allocations add up to 96. *)
Lemma allocation_change_rounds_large_values :
  let after := Strategies.strategies
                 (state (Strategies.afterAllocationChange "sentiment" (10 ^ 17)
                           (mkWorld Strategies.initialPage []))) in
  isBinary64 (10 ^ 17) = true
  /\ map Strategies.allocation after = [10 ^ 17; -99999999999999904]
  /\ Strategies.totalAllocation after = 96
  /\ Strategies.totalAllocation after <> 100.
Proof.
  cbv zeta. split; [vm_compute; reflexivity |].
  split; [vm_compute; reflexivity |].
  split; [vm_compute; reflexivity |].
  vm_compute. discriminate.
Qed.

(** C10. Toggling a strategy whose id is in the list completes normally and
    changes the list position by position as follows: a strategy with that
    id has its [enabled] flag negated and its name, description,
    allocation, performance and settings kept; every other strategy is left
    as it was.  The selected strategy is not touched. *)
Theorem toggle_strategy_frame (strategyId : string)
    (w : World Strategies.Page) :
  In strategyId (map Strategies.id (Strategies.strategies (state w))) ->
  snd (Strategies.handleToggleStrategy
         (Strategies.strategies (state w)) strategyId w) = Normal tt
  /\ Strategies.selectedStrategy (state (Strategies.afterToggle strategyId w))
     = Strategies.selectedStrategy (state w)
  /\ Forall2
       (fun old new =>
          Strategies.id new = Strategies.id old
          /\ Strategies.name new = Strategies.name old
          /\ Strategies.description new = Strategies.description old
          /\ Strategies.allocation new = Strategies.allocation old
          /\ Strategies.performance new = Strategies.performance old
          /\ Strategies.settings new = Strategies.settings old
          /\ Strategies.enabled new
             = (if (Strategies.id old =? strategyId)%string
                then negb (Strategies.enabled old) else Strategies.enabled old)
          /\ (if (Strategies.id old =? strategyId)%string
              then True else new = old))
       (Strategies.strategies (state w))
       (Strategies.strategies (state (Strategies.afterToggle strategyId w))).
Proof.
  intros Hin.
  rewrite StrategiesFacts.afterToggle_state. cbn [Strategies.selectedStrategy Strategies.strategies].
  split; [| split; [reflexivity | apply StrategiesFacts.toggleStrategy_pointwise]].
  destruct (StrategiesFacts.find_by_id _ _ Hin) as (s & Hfind & _).
  unfold Strategies.handleToggleStrategy, bind, Strategies.setStrategies, modify.
  rewrite Hfind. reflexivity.
Qed.

Lemma toggle_strategy_frame_witness :
  let w := mkWorld Strategies.initialPage [] in
  let after := Strategies.strategies
                 (state (Strategies.afterToggle "arbitrage" w)) in
  In "arbitrage" (map Strategies.id (Strategies.strategies (state w)))
  /\ Forall2
       (fun old new =>
          Strategies.id new = Strategies.id old
          /\ Strategies.name new = Strategies.name old
          /\ Strategies.description new = Strategies.description old
          /\ Strategies.allocation new = Strategies.allocation old
          /\ Strategies.performance new = Strategies.performance old
          /\ Strategies.settings new = Strategies.settings old
          /\ Strategies.enabled new
             = (if (Strategies.id old =? "arbitrage")%string
                then negb (Strategies.enabled old) else Strategies.enabled old)
          /\ (if (Strategies.id old =? "arbitrage")%string
              then True else new = old))
       (Strategies.strategies (state w)) after.
Proof.
  cbv zeta.
  assert (Hin : In "arbitrage"
                  (map Strategies.id
                     (Strategies.strategies
                        (state (mkWorld Strategies.initialPage []))))).
  { cbn. right. left. reflexivity. }
  split; [exact Hin |].
  apply (toggle_strategy_frame "arbitrage"
           (mkWorld Strategies.initialPage []) Hin).
Defined.

(* ================================================================== *)
(** ** Further properties of the bot controls *)
(* ================================================================== *)

Section ControlRuns.
Context {X : Type}.
Variable text : PageText.
Implicit Types (w : World (Panel X)) (now : string) (c : Control).

Lemma after_keeps_extra c now w :
  extra (state (after text c now w)) = extra (state w).
Proof.
  unfold after. destruct c;
    rewrite ?invoke_Start, ?invoke_Stop, ?invoke_EmergencyStop; try reflexivity.
  destruct (isRunning (botStatus (state w))) eqn:Hr.
  - rewrite invoke_Toggle_running by assumption. reflexivity.
  - rewrite invoke_Toggle_not_running by assumption. reflexivity.
Qed.

Lemma after_adds_one_toast c now w :
  exists t, toasts (after text c now w) = (toasts w ++ [t])%list.
Proof.
  unfold after. destruct c;
    rewrite ?invoke_Start, ?invoke_Stop, ?invoke_EmergencyStop;
    try (eexists; reflexivity).
  destruct (isRunning (botStatus (state w))) eqn:Hr.
  - rewrite invoke_Toggle_running by assumption. eexists. reflexivity.
  - rewrite invoke_Toggle_not_running by assumption. eexists. reflexivity.
Qed.

(** A control pressed while it is enabled reports success, or, for the
    emergency stop, its own announcement; loading is over afterwards. *)
Lemma offered_press_reports_no_failure c now w :
  offered c (state w) = true ->
  isLoading (state (after text c now w)) = false
  /\ exists t,
       toasts (after text c now w) = (toasts w ++ [t])%list
       /\ (isErrorToast t = true -> t = ToastError (emergencyMsg text)).
Proof.
  intros Hoffered. unfold after. destruct c.
  - rewrite invoke_Start. split; [reflexivity |].
    eexists. split; [reflexivity | discriminate].
  - rewrite invoke_Stop. split; [reflexivity |].
    eexists. split; [reflexivity | discriminate].
  - assert (Hr : isRunning (botStatus (state w)) = true).
    { unfold offered, toggleDisabled in Hoffered.
      destruct (isRunning (botStatus (state w))); [reflexivity | discriminate]. }
    rewrite invoke_Toggle_running by assumption. split; [reflexivity |].
    eexists. split; [reflexivity | discriminate].
  - rewrite invoke_EmergencyStop. split; [reflexivity |].
    eexists. split; [reflexivity | reflexivity].
Qed.

Lemma run_app (cs cs' : list (Control * string)) :
  forall w, run text (cs ++ cs') w = run text cs' (run text cs w).
Proof.
  induction cs as [| [c now] cs IH]; intros w; cbn [run app].
  - reflexivity.
  - apply IH.
Qed.

Lemma runApp_app (es es' : list AppEvent) :
  forall w, runApp text (es ++ es') w = runApp text es' (runApp text es w).
Proof.
  induction es as [| e es IH]; intros w; cbn [runApp app].
  - reflexivity.
  - apply IH.
Qed.

(** Once [lastUpdate] is set, no control clears it. *)
Lemma run_keeps_lastUpdate_set (cs : list (Control * string)) :
  forall w,
    lastUpdate (botStatus (state w)) <> None ->
    lastUpdate (botStatus (state (run text cs w))) <> None.
Proof.
  induction cs as [| [c now] cs IH]; intros w Hset; cbn [run].
  - exact Hset.
  - apply IH. unfold after. destruct c;
      rewrite ?invoke_Start, ?invoke_Stop, ?invoke_EmergencyStop;
      try (cbn; discriminate).
    destruct (isRunning (botStatus (state w))) eqn:Hr.
    + rewrite invoke_Toggle_running by assumption. cbn. discriminate.
    + rewrite invoke_Toggle_not_running by assumption. exact Hset.
Qed.

Lemma run_from_stopped_unset (cs : list (Control * string)) :
  forall w,
    isRunning (botStatus (state w)) = false ->
    lastUpdate (botStatus (state w)) = None ->
    (lastUpdate (botStatus (state (run text cs w))) = None
     <-> Forall (fun p => fst p = ToggleTrading) cs).
Proof.
  induction cs as [| [c now] cs IH]; intros w Hstopped Hunset; cbn [run].
  - split; [constructor | intros _; exact Hunset].
  - destruct c.
    + split.
      * intros Hnone. exfalso. revert Hnone.
        apply run_keeps_lastUpdate_set.
        unfold after. rewrite invoke_Start. cbn. discriminate.
      * intros Hall. inversion Hall as [| p ps Hhead _]. discriminate Hhead.
    + split.
      * intros Hnone. exfalso. revert Hnone.
        apply run_keeps_lastUpdate_set.
        unfold after. rewrite invoke_Stop. cbn. discriminate.
      * intros Hall. inversion Hall as [| p ps Hhead _]. discriminate Hhead.
    + assert (Hsame : state (after text ToggleTrading now w) = state w).
      { unfold after. rewrite invoke_Toggle_not_running by assumption.
        reflexivity. }
      rewrite (IH (after text ToggleTrading now w))
        by (rewrite Hsame; assumption).
      split.
      * intros Hall. constructor; [reflexivity | exact Hall].
      * intros Hall. inversion Hall. assumption.
    + split.
      * intros Hnone. exfalso. revert Hnone.
        apply run_keeps_lastUpdate_set.
        unfold after. rewrite invoke_EmergencyStop. cbn. discriminate.
      * intros Hall. inversion Hall as [| p ps Hhead _]. discriminate Hhead.
Qed.

End ControlRuns.

(** X1. Whatever controls are pressed, in whatever order, the rest of the
    page state (on the desktop page: the two settings forms) is left alone,
    the toasts already shown stay, and every press adds exactly one toast:
    no press is silent. *)
Theorem controls_add_one_toast_each {X} (text : PageText)
    (cs : list (Control * string)) (w : World (Panel X)) :
  extra (state (run text cs w)) = extra (state w)
  /\ exists shown,
       toasts (run text cs w) = (toasts w ++ shown)%list
       /\ length shown = length cs.
Proof.
  revert w. induction cs as [| [c now] cs IH]; intros w; cbn [run].
  - split; [reflexivity |]. exists []. split; [| reflexivity].
    symmetry. apply app_nil_r.
  - destruct (IH (after text c now w)) as (Hextra & shown & Htoasts & Hlen).
    destruct (after_adds_one_toast text c now w) as (t & Hone).
    split.
    + rewrite Hextra. apply after_keeps_extra.
    + exists (t :: shown). split.
      * rewrite Htoasts, Hone, <- app_assoc. reflexivity.
      * cbn [length]. rewrite Hlen. reflexivity.
Qed.

(** X2. As long as every press lands on a control that is enabled at that
    moment, no failure is ever reported: the toasts added are success
    toasts, apart from the announcement of the emergency stop.  In
    particular the "bot must be running" refusal of the trading switch is
    out of reach, the switch being disabled whenever it would apply. *)
Theorem offered_presses_never_fail {X} (text : PageText)
    (cs : list (Control * string)) (w w' : World (Panel X)) :
  runOffered text cs w = Some w' ->
  w' = run text cs w
  /\ isLoading (state w') = isLoading (state w)
  /\ exists shown,
       toasts w' = (toasts w ++ shown)%list
       /\ Forall (fun t => isErrorToast t = true
                           -> t = ToastError (emergencyMsg text)) shown.
Proof.
  revert w. induction cs as [| [c now] cs IH]; intros w; cbn [runOffered run].
  - intros Hsome. injection Hsome as <-.
    repeat split. exists []. split; [| constructor].
    symmetry. apply app_nil_r.
  - destruct (offered c (state w)) eqn:Hoffered; [| discriminate].
    intros Hsome.
    destruct (IH _ Hsome) as (Hrun & Hloading & shown & Htoasts & Hok).
    destruct (offered_press_reports_no_failure text c now w Hoffered)
      as (Hdone & t & Hone & Ht).
    split; [exact Hrun |]. split.
    + rewrite Hloading, Hdone.
      unfold offered, startDisabled, stopDisabled, toggleDisabled,
        emergencyDisabled in Hoffered.
      destruct (isLoading (state w)); [| reflexivity].
      destruct c; rewrite ?orb_true_r in Hoffered; discriminate.
    + exists (t :: shown). split.
      * rewrite Htoasts, Hone, <- app_assoc. reflexivity.
      * constructor; assumption.
Qed.

Lemma offered_presses_never_fail_witness :
  let cs := [(Start, "2025-07-01T10:00:00.000Z");
             (ToggleTrading, "2025-07-01T10:00:05.000Z");
             (EmergencyStop, "2025-07-01T10:01:00.000Z")] in
  exists w',
    runOffered Trading_text cs (initialWorld tt) = Some w'
    /\ w' = run Trading_text cs (initialWorld tt)
    /\ toasts w' = [ToastSuccess "Trading bot started";
                    ToastSuccess "Trading enabled";
                    ToastError "Emergency stop activated"].
Proof.
  cbv zeta. eexists. split; [reflexivity |]. split; [| reflexivity].
  exact (proj1 (offered_presses_never_fail Trading_text
                  [(Start, "2025-07-01T10:00:00.000Z");
                   (ToggleTrading, "2025-07-01T10:00:05.000Z");
                   (EmergencyStop, "2025-07-01T10:01:00.000Z")]
                  (initialWorld tt) _ eq_refl)).
Defined.

(** X3. On the mobile app, where the status starts at the initial one and
    nothing but the four controls changes it: when the controls are invoked
    one after the other, every handler having finished before the next
    control is pressed, then after any such sequence an enabled Start
    button takes the bot to Monitoring: running, with trading off. *)
Theorem enabled_start_leads_to_monitoring {X} (text : PageText) (x : X)
    (cs : list (Control * string)) (now : string) :
  startDisabled (state (run text cs (initialWorld x))) = false ->
  statusAfter text Start now (run text cs (initialWorld x))
  = mkBotStatus true false (Some now)
  /\ getStatusText (statusAfter text Start now (run text cs (initialWorld x)))
     = "Monitoring".
Proof.
  intros Henabled.
  pose proof (run_keeps_trading_within_running text cs (initialWorld x))
    as Hinv.
  unfold statusAfter, after. rewrite invoke_Start. cbn [fst state botStatus].
  unfold startDisabled in Henabled.
  destruct (isRunning (botStatus (state (run text cs (initialWorld x)))))
    eqn:Hr; [discriminate |].
  destruct (isTradingEnabled (botStatus (state (run text cs (initialWorld x)))))
    eqn:Ht.
  - exfalso. assert (false = true) by (apply Hinv; [cbn; discriminate | reflexivity]).
    discriminate.
  - split; reflexivity.
Qed.

Lemma enabled_start_leads_to_monitoring_witness :
  let cs := [(Start, "2025-07-01T10:00:00.000Z");
             (ToggleTrading, "2025-07-01T10:00:05.000Z");
             (Stop, "2025-07-01T10:01:00.000Z")] in
  startDisabled (state (run TradingControl_text cs
                          (initialWorld TradingControl.initialForms))) = false
  /\ getStatusText
       (statusAfter TradingControl_text Start "2025-07-01T10:02:00.000Z"
          (run TradingControl_text cs (initialWorld TradingControl.initialForms)))
     = "Monitoring".
Proof.
  cbv zeta. split; [reflexivity |].
  apply (enabled_start_leads_to_monitoring TradingControl_text
           TradingControl.initialForms
           [(Start, "2025-07-01T10:00:00.000Z");
            (ToggleTrading, "2025-07-01T10:00:05.000Z");
            (Stop, "2025-07-01T10:01:00.000Z")]
           "2025-07-01T10:02:00.000Z").
  reflexivity.
Defined.

(** X4. The guard of the trading toggle looks at the status the page was
    rendered with, while the update is applied to the status current at
    that time.  When the rendered status is running, the toggle goes
    through whatever the current status is: [isRunning] stays as it
    currently is, [isTradingEnabled] is negated, and the toast is worded
    after the rendered status.  If the bot has stopped in between, trading
    ends up enabled on a stopped bot. *)
Theorem toggle_guard_uses_rendered_status {X} (text : PageText)
    (rendered : BotStatus) (now : string) (w : World (Panel X)) :
  isRunning rendered = true ->
  botStatus (state (fst (handleToggleTrading text rendered now w)))
  = mkBotStatus (isRunning (botStatus (state w)))
      (negb (isTradingEnabled (botStatus (state w)))) (Some now)
  /\ toasts (fst (handleToggleTrading text rendered now w))
     = (toasts w ++
        [ToastSuccess
           ("Trading " ++
            (if negb (isTradingEnabled rendered) then "enabled" else "disabled"))])%list.
Proof.
  intros Hrendered. unfold handleToggleTrading.
  rewrite Hrendered. split; reflexivity.
Qed.

Lemma toggle_guard_uses_rendered_status_witness :
  let rendered := mkBotStatus true false (Some "2025-07-01T10:00:00.000Z") in
  let current := mkBotStatus false false (Some "2025-07-01T10:00:30.000Z") in
  let w := mkWorld (mkPanel current false TradingControl.initialForms) [] in
  isRunning rendered = true
  /\ botStatus (state (fst (handleToggleTrading TradingControl_text rendered
                              "2025-07-01T10:00:31.000Z" w)))
     = mkBotStatus false true (Some "2025-07-01T10:00:31.000Z").
Proof.
  cbv zeta. split; [reflexivity |].
  apply (toggle_guard_uses_rendered_status TradingControl_text
           (mkBotStatus true false (Some "2025-07-01T10:00:00.000Z"))
           "2025-07-01T10:00:31.000Z"
           (mkWorld
              (mkPanel (mkBotStatus false false (Some "2025-07-01T10:00:30.000Z"))
                 false TradingControl.initialForms) [])).
  reflexivity.
Defined.

(** X5. Starting from the initial status, [lastUpdate] is still [null]
    after a sequence of presses exactly when every one of them was the
    trading toggle: a refused toggle leaves no timestamp, every other
    control does, and a timestamp once set is never cleared. *)
Theorem lastUpdate_null_iff_only_refused_toggles {X} (text : PageText) (x : X)
    (cs : list (Control * string)) :
  lastUpdate (botStatus (state (run text cs (initialWorld x)))) = None
  <-> Forall (fun p => fst p = ToggleTrading) cs.
Proof.
  apply run_from_stopped_unset; reflexivity.
Qed.

(** X6. On the desktop page, with presses and polls taking effect one at
    a time (every handler having finished before the next press or poll):
    the status poll overwrites the whole status with what it drew,
    whatever was pressed or polled before; and after any such history a
    press on Start, Stop or Emergency Stop restores the rule that trading is
    enabled only while running, which then holds for as long as further
    controls are invoked one after the other and no poll comes in. *)
Theorem poll_overwrites_and_controls_repair {X} (text : PageText)
    (es : list AppEvent) (c : Control) (now : string)
    (cs : list (Control * string)) (w : World (Panel X)) :
  c <> ToggleTrading ->
  (forall random1 random2 polled,
     botStatus (state (runApp text (es ++ [Poll random1 random2 polled]) w))
     = fetchBotStatus random1 random2 polled)
  /\ (isTradingEnabled
        (botStatus (state (run text cs (after text c now (runApp text es w)))))
      = true ->
      isRunning
        (botStatus (state (run text cs (after text c now (runApp text es w)))))
      = true).
Proof.
  intros Hcontrol. split.
  - intros random1 random2 polled. rewrite runApp_app. reflexivity.
  - apply run_keeps_trading_within_running.
    unfold after. destruct c.
    + rewrite invoke_Start. reflexivity.
    + rewrite invoke_Stop. cbn. discriminate.
    + contradiction.
    + rewrite invoke_EmergencyStop. cbn. discriminate.
Qed.

Lemma poll_overwrites_and_controls_repair_witness :
  let es := [Press Start "2025-07-01T10:00:00.000Z";
             Poll (1 # 10) (9 # 10) "2025-07-01T10:00:30.000Z"] in
  let w := initialWorld TradingControl.initialForms in
  let cs := [(ToggleTrading, "2025-07-01T10:01:00.000Z");
             (ToggleTrading, "2025-07-01T10:01:05.000Z")] in
  botStatus (state (runApp TradingControl_text es w))
  = mkBotStatus false true (Some "2025-07-01T10:00:30.000Z")
  /\ isRunning
       (botStatus
          (state (run TradingControl_text cs
                    (after TradingControl_text Start "2025-07-01T10:00:45.000Z"
                       (runApp TradingControl_text es w)))))
     = true.
Proof.
  cbv zeta. split; [reflexivity |].
  apply (poll_overwrites_and_controls_repair TradingControl_text
           [Press Start "2025-07-01T10:00:00.000Z";
            Poll (1 # 10) (9 # 10) "2025-07-01T10:00:30.000Z"]
           Start "2025-07-01T10:00:45.000Z"
           [(ToggleTrading, "2025-07-01T10:01:00.000Z");
             (ToggleTrading, "2025-07-01T10:01:05.000Z")]
           (initialWorld TradingControl.initialForms)).
  - discriminate.
  - reflexivity.
Defined.

(* ================================================================== *)
(** ** Properties of the status indicators *)
(* ================================================================== *)

(** X7. The four status indicators of the sidebar (label, dot colour, icon
    and badge variant) always agree: together they show one of three
    combinations, picked by [isRunning] and, while running, by
    [isTradingEnabled]. *)
Theorem sidebar_indicators_agree (b : BotStatus) :
  (isRunning b = false
   /\ getStatusText b = "Stopped" /\ getStatusColor b = "bg-red-500"
   /\ getStatusIcon b = AlertTriangle /\ sidebarBadgeVariant b = "destructive")
  \/ (isRunning b = true /\ isTradingEnabled b = false
      /\ getStatusText b = "Monitoring" /\ getStatusColor b = "bg-yellow-500"
      /\ getStatusIcon b = Pause /\ sidebarBadgeVariant b = "secondary")
  \/ (isRunning b = true /\ isTradingEnabled b = true
      /\ getStatusText b = "Trading" /\ getStatusColor b = "bg-green-500"
      /\ getStatusIcon b = Activity /\ sidebarBadgeVariant b = "default").
Proof.
  destruct b as [[|] [|] last].
  - right. right. repeat split.
  - right. left. repeat split.
  - left. repeat split.
  - left. repeat split.
Qed.

(** X8. The header of the Trading Control page and the sidebar always
    agree on running against stopped: the header reads "Running" exactly
    when the sidebar does not read "Stopped".  On trading they agree, the
    "Trading Active" badge being there exactly when the sidebar reads
    "Trading", at the statuses where trading is enabled only if the bot is
    running, and at no other: on a stopped bot with trading enabled the
    header shows "Stopped" next to "Trading Active" while the sidebar reads
    "Stopped". *)
Theorem header_agrees_with_sidebar (b : BotStatus) :
  (headerStatusText b = "Running" <-> getStatusText b <> "Stopped")
  /\ ((headerTradingBadge b = Some "Trading Active"
       <-> getStatusText b = "Trading")
      <-> (isTradingEnabled b = true -> isRunning b = true))
  /\ (forall last,
        headerStatusText (mkBotStatus false true last) = "Stopped"
        /\ headerTradingBadge (mkBotStatus false true last)
           = Some "Trading Active"
        /\ getStatusText (mkBotStatus false true last) = "Stopped").
Proof.
  split; [| split].
  - destruct b as [[|] [|] last]; cbn; split;
      try discriminate; try reflexivity;
      intros H; exfalso; apply H; reflexivity.
  - destruct b as [[|] [|] last]; cbn.
    + split; [intros _ _; reflexivity | intros _; split; reflexivity].
    + split; [intros _ H; discriminate H
             | intros _; split; intros H; discriminate H].
    + split.
      * intros [Hbadge _] _. specialize (Hbadge eq_refl). discriminate Hbadge.
      * intros H. specialize (H eq_refl). discriminate H.
    + split; [intros _ H; discriminate H
             | intros _; split; intros H; discriminate H].
  - intros last. repeat split.
Qed.

(* ================================================================== *)
(** ** Further properties of the strategy list *)
(* ================================================================== *)

Module StrategiesRuns.
Import Strategies.

Lemma strategy_eta (s : Strategy) :
  mkStrategy (id s) (name s) (description s) (enabled s) (allocation s)
    (performance s) (settings s) = s.
Proof. destruct s. reflexivity. Qed.

Lemma page_eta (p : Page) : mkPage (strategies p) (selectedStrategy p) = p.
Proof. destruct p. reflexivity. Qed.

Lemma toggleStrategy_twice (strategyId : string) (l : list Strategy) :
  toggleStrategy strategyId (toggleStrategy strategyId l) = l.
Proof.
  unfold toggleStrategy.
  induction l as [| a l IH]; cbn [map]; [reflexivity |].
  rewrite IH. f_equal.
  destruct (id a =? strategyId)%string eqn:Ha; cbn [id]; rewrite Ha.
  - cbn. rewrite negb_involutive. apply strategy_eta.
  - reflexivity.
Qed.

Lemma toggleStrategy_unknown (strategyId : string) (l : list Strategy) :
  ~ In strategyId (map id l) ->
  toggleStrategy strategyId l = l
  /\ find (fun s => (id s =? strategyId)%string) l = None.
Proof.
  unfold toggleStrategy.
  induction l as [| a l IH]; cbn [map In find]; intros Hnot.
  - split; reflexivity.
  - destruct (String.eqb_spec (id a) strategyId) as [Heq | Hne].
    + exfalso. apply Hnot. left. exact Heq.
    + destruct IH as (Hmap & Hfind).
      { intros Hin. apply Hnot. right. exact Hin. }
      rewrite Hmap. split; [reflexivity | exact Hfind].
Qed.

(** The first strategy with the given id, before and after the toggle. *)
Lemma find_after_toggle (strategyId : string) (l : list Strategy) (s : Strategy) :
  find (fun s => (id s =? strategyId)%string) l = Some s ->
  find (fun s => (id s =? strategyId)%string) (toggleStrategy strategyId l)
  = Some (mkStrategy (id s) (name s) (description s) (negb (enabled s))
            (allocation s) (performance s) (settings s)).
Proof.
  unfold toggleStrategy.
  induction l as [| a l IH]; cbn [map find]; [discriminate |].
  destruct (id a =? strategyId)%string eqn:Ha.
  - intros Hsome. injection Hsome as <-. cbn [id]. rewrite Ha. reflexivity.
  - rewrite Ha. exact IH.
Qed.

Lemma changeAllocation_total (strategyId : string) (newAllocation : Z)
    (l : list Strategy) :
  totalAllocation (changeAllocation strategyId newAllocation l)
  = newAllocation
      * Z.of_nat (length (filter (fun s => (id s =? strategyId)%string) l))
    + toBinary64 (100 - newAllocation)
      * Z.of_nat (length (filter (fun s => negb (id s =? strategyId)%string) l)).
Proof.
  unfold changeAllocation, totalAllocation. cbv zeta.
  generalize (toBinary64 (100 - newAllocation)) as remaining. intros remaining.
  induction l as [| a l IH]; cbn [map fold_right filter length].
  - lia.
  - rewrite IH.
    destruct (id a =? strategyId)%string;
      cbn [negb length allocation]; lia.
Qed.

Lemma changeAllocation_overwrites (a b : string) (n m : Z) (l : list Strategy) :
  changeAllocation a n (changeAllocation b m l) = changeAllocation a n l.
Proof.
  unfold changeAllocation. cbv zeta.
  induction l as [| s l IH]; cbn [map]; [reflexivity |].
  rewrite IH. f_equal.
  destruct (id s =? b)%string; cbn [id name description enabled performance settings];
    reflexivity.
Qed.

Lemma toggle_changeAllocation_commute (a b : string) (n : Z) (l : list Strategy) :
  toggleStrategy a (changeAllocation b n l)
  = changeAllocation b n (toggleStrategy a l).
Proof.
  unfold toggleStrategy, changeAllocation. cbv zeta.
  induction l as [| s l IH]; cbn [map]; [reflexivity |].
  rewrite IH. f_equal.
  destruct (id s =? a)%string eqn:Ha, (id s =? b)%string eqn:Hb;
    cbn [id]; rewrite ?Ha, ?Hb; reflexivity.
Qed.

Lemma toggle_toggle_commute (a b : string) (l : list Strategy) :
  toggleStrategy a (toggleStrategy b l) = toggleStrategy b (toggleStrategy a l).
Proof.
  unfold toggleStrategy.
  induction l as [| s l IH]; cbn [map]; [reflexivity |].
  rewrite IH. f_equal.
  destruct (id s =? a)%string eqn:Ha, (id s =? b)%string eqn:Hb;
    cbn [id]; rewrite ?Ha, ?Hb; reflexivity.
Qed.

Lemma toggle_changeSetting_commute (a b key : string) (v : Q) (l : list Strategy) :
  toggleStrategy a (changeSetting b key v l)
  = changeSetting b key v (toggleStrategy a l).
Proof.
  unfold toggleStrategy, changeSetting.
  induction l as [| s l IH]; cbn [map]; [reflexivity |].
  rewrite IH. f_equal.
  destruct (id s =? a)%string eqn:Ha, (id s =? b)%string eqn:Hb;
    cbn [id]; rewrite ?Ha, ?Hb; reflexivity.
Qed.

Lemma getKey_setKey_same (o : JsObject) (key : string) (v : Q) :
  getKey (setKey o key v) key = Some v.
Proof.
  induction o as [| [k u] o IH]; cbn [setKey getKey].
  - rewrite String.eqb_refl. reflexivity.
  - destruct (k =? key)%string eqn:Hk; cbn [getKey]; rewrite Hk.
    + reflexivity.
    + exact IH.
Qed.

Lemma getKey_setKey_other (o : JsObject) (key other : string) (v : Q) :
  other <> key ->
  getKey (setKey o key v) other = getKey o other.
Proof.
  intros Hother.
  induction o as [| [k u] o IH]; cbn [setKey getKey].
  - destruct (String.eqb_spec key other) as [Heq | _]; [| reflexivity].
    exfalso. apply Hother. symmetry. exact Heq.
  - destruct (String.eqb_spec k key) as [Hk | Hk]; cbn [getKey].
    + subst k.
      destruct (String.eqb_spec key other) as [Heq | _]; [| reflexivity].
      exfalso. apply Hother. symmetry. exact Heq.
    + rewrite IH. reflexivity.
Qed.

Lemma setKey_keeps_keys (o : JsObject) (key : string) (v : Q) :
  In key (map fst o) -> map fst (setKey o key v) = map fst o.
Proof.
  induction o as [| [k u] o IH]; cbn [map In setKey fst]; [intros [] |].
  intros Hin.
  destruct (String.eqb_spec k key) as [Hk | Hk]; cbn [map fst].
  - reflexivity.
  - destruct Hin as [Hhead | Htail]; [contradiction |].
    rewrite IH by assumption. reflexivity.
Qed.

Lemma changeSetting_pointwise (strategyId setting : string) (value : Q)
    (l : list Strategy) :
  Forall2
    (fun old new =>
       id new = id old /\ name new = name old
       /\ description new = description old
       /\ enabled new = enabled old
       /\ allocation new = allocation old
       /\ performance new = performance old
       /\ (if (id old =? strategyId)%string
           then getKey (settings new) setting = Some value
                /\ (forall other, other <> setting ->
                      getKey (settings new) other = getKey (settings old) other)
           else new = old))
    l (changeSetting strategyId setting value l).
Proof.
  unfold changeSetting.
  induction l as [| a l IH]; cbn [map]; constructor; [| exact IH].
  destruct (id a =? strategyId)%string; cbn; repeat split.
  - apply getKey_setKey_same.
  - intros other Hother. apply getKey_setKey_other, Hother.
Qed.

Lemma afterSettingChange_state (strategyId setting : string) (value : Q)
    (w : World Page) :
  state (afterSettingChange strategyId setting value w)
  = mkPage (changeSetting strategyId setting value (strategies (state w)))
      (selectedStrategy (state w)).
Proof. reflexivity. Qed.

End StrategiesRuns.

(** X9. Switching a strategy off and on again, or on and off again, brings
    the page back to exactly what it was. *)
Theorem toggle_strategy_twice_restores (strategyId : string)
    (w : World Strategies.Page) :
  state (Strategies.afterToggle strategyId (Strategies.afterToggle strategyId w))
  = state w.
Proof.
  rewrite !StrategiesFacts.afterToggle_state.
  cbn [Strategies.strategies Strategies.selectedStrategy].
  rewrite StrategiesRuns.toggleStrategy_twice.
  apply StrategiesRuns.page_eta.
Qed.

(** X10. On any list of strategies, after an allocation change to an
    integer-valued number every strategy with the given id holds the new
    allocation and every other one holds the binary64 result of 100 minus
    it, so the total is the new value times the number of the former plus
    that remainder times the number of the latter.  The remainder is
    exactly 100 minus the new value when the new value is below 2^53 - 100
    in magnitude.  With an id that is not in the list every strategy gets
    the remainder; an empty list stays at a total of 0. *)
Theorem allocation_total_after_change (strategyId : string)
    (newAllocation : Z) (w : World Strategies.Page) :
  isBinary64 newAllocation = true ->
  Strategies.totalAllocation
    (Strategies.strategies
       (state (Strategies.afterAllocationChange strategyId newAllocation w)))
  = newAllocation
      * Z.of_nat
          (length (filter (fun s => (Strategies.id s =? strategyId)%string)
                     (Strategies.strategies (state w))))
    + toBinary64 (100 - newAllocation)
      * Z.of_nat
          (length (filter (fun s => negb (Strategies.id s =? strategyId)%string)
                     (Strategies.strategies (state w))))
  /\ (Z.abs newAllocation < 2 ^ 53 - 100 ->
      toBinary64 (100 - newAllocation) = 100 - newAllocation).
Proof.
  intros _. split.
  - rewrite StrategiesFacts.afterAllocationChange_state.
    cbn [Strategies.strategies].
    apply StrategiesRuns.changeAllocation_total.
  - intros Hbound. apply toBinary64_small.
    change (2 ^ 53) with 9007199254740992 in *. lia.
Qed.

Lemma allocation_total_after_change_witness :
  isBinary64 (10 ^ 17) = true
  /\ Strategies.totalAllocation
       (Strategies.strategies
          (state (Strategies.afterAllocationChange "sentiment" (10 ^ 17)
                    (mkWorld Strategies.initialPage []))))
     = 10 ^ 17 * 1 + toBinary64 (100 - 10 ^ 17) * 1.
Proof.
  split; [vm_compute; reflexivity |].
  apply (allocation_total_after_change "sentiment" (10 ^ 17)
           (mkWorld Strategies.initialPage [])).
  vm_compute. reflexivity.
Defined.

(** X11. An allocation change does not depend on the allocations in
    place: it overwrites all of them, so of two changes in a row only the
    second one shows, whichever strategies they were aimed at. *)
Theorem allocation_change_overwrites (first second : string) (m n : Z)
    (w : World Strategies.Page) :
  state (Strategies.afterAllocationChange second n
           (Strategies.afterAllocationChange first m w))
  = state (Strategies.afterAllocationChange second n w).
Proof.
  rewrite !StrategiesFacts.afterAllocationChange_state.
  cbn [Strategies.strategies Strategies.selectedStrategy].
  rewrite StrategiesRuns.changeAllocation_overwrites. reflexivity.
Qed.

(** X12. The switch of a strategy is independent of the other handlers:
    toggling commutes with an allocation change, with a setting change and
    with the toggle of any strategy, whatever ids are involved. *)
Theorem toggle_commutes_with_other_handlers (toggled other setting : string)
    (n : Z) (value : Q) (w : World Strategies.Page) :
  state (Strategies.afterToggle toggled
           (Strategies.afterAllocationChange other n w))
  = state (Strategies.afterAllocationChange other n
             (Strategies.afterToggle toggled w))
  /\ state (Strategies.afterToggle toggled
              (Strategies.afterSettingChange other setting value w))
     = state (Strategies.afterSettingChange other setting value
                (Strategies.afterToggle toggled w))
  /\ state (Strategies.afterToggle toggled (Strategies.afterToggle other w))
     = state (Strategies.afterToggle other (Strategies.afterToggle toggled w)).
Proof.
  repeat split.
  - rewrite StrategiesFacts.afterToggle_state,
      !StrategiesFacts.afterAllocationChange_state,
      StrategiesFacts.afterToggle_state.
    cbn [Strategies.strategies Strategies.selectedStrategy].
    rewrite StrategiesRuns.toggle_changeAllocation_commute. reflexivity.
  - rewrite StrategiesFacts.afterToggle_state,
      !StrategiesRuns.afterSettingChange_state,
      StrategiesFacts.afterToggle_state.
    cbn [Strategies.strategies Strategies.selectedStrategy].
    rewrite StrategiesRuns.toggle_changeSetting_commute. reflexivity.
  - rewrite !StrategiesFacts.afterToggle_state.
    cbn [Strategies.strategies Strategies.selectedStrategy].
    rewrite StrategiesRuns.toggle_toggle_commute. reflexivity.
Qed.

(** X13. A setting change is silent and touches one value only: in every
    strategy with the given id the named setting now reads the new value
    and every other setting reads as before; switch, allocation, texts and
    performance figures stay; every other strategy, the selection and the
    toasts are untouched. *)
Theorem setting_change_frame (strategyId setting : string) (value : Q)
    (w : World Strategies.Page) :
  toasts (Strategies.afterSettingChange strategyId setting value w) = toasts w
  /\ Strategies.selectedStrategy
       (state (Strategies.afterSettingChange strategyId setting value w))
     = Strategies.selectedStrategy (state w)
  /\ Forall2
       (fun old new =>
          Strategies.id new = Strategies.id old
          /\ Strategies.name new = Strategies.name old
          /\ Strategies.description new = Strategies.description old
          /\ Strategies.enabled new = Strategies.enabled old
          /\ Strategies.allocation new = Strategies.allocation old
          /\ Strategies.performance new = Strategies.performance old
          /\ (if (Strategies.id old =? strategyId)%string
              then Strategies.getKey (Strategies.settings new) setting = Some value
                   /\ (forall other, other <> setting ->
                         Strategies.getKey (Strategies.settings new) other
                         = Strategies.getKey (Strategies.settings old) other)
              else new = old))
       (Strategies.strategies (state w))
       (Strategies.strategies
          (state (Strategies.afterSettingChange strategyId setting value w))).
Proof.
  split; [reflexivity |]. split; [reflexivity |].
  rewrite StrategiesRuns.afterSettingChange_state.
  cbn [Strategies.strategies].
  apply StrategiesRuns.changeSetting_pointwise.
Qed.

(** X15. The toast of the strategy switch tells what the switch has just
    done: it names the first strategy with the given id and says "enabled"
    exactly when that strategy is enabled after the toggle. *)
Theorem toggle_toast_announces_new_state (strategyId : string)
    (w : World Strategies.Page) :
  In strategyId (map Strategies.id (Strategies.strategies (state w))) ->
  exists s',
    find (fun s => (Strategies.id s =? strategyId)%string)
      (Strategies.strategies (state (Strategies.afterToggle strategyId w)))
    = Some s'
    /\ toasts (Strategies.afterToggle strategyId w)
       = (toasts w ++
          [ToastSuccess
             (Strategies.name s' ++ " " ++
              (if Strategies.enabled s' then "enabled" else "disabled"))])%list.
Proof.
  intros Hin.
  destruct (StrategiesFacts.find_by_id _ _ Hin) as (s & Hfind & _).
  eexists. split.
  - rewrite StrategiesFacts.afterToggle_state. cbn [Strategies.strategies].
    apply StrategiesRuns.find_after_toggle, Hfind.
  - unfold Strategies.afterToggle, Strategies.handleToggleStrategy, bind,
      Strategies.setStrategies, modify.
    rewrite Hfind. cbn.
    destruct (Strategies.enabled s); reflexivity.
Qed.

Lemma toggle_toast_announces_new_state_witness :
  toasts (Strategies.afterToggle "arbitrage"
            (mkWorld Strategies.initialPage []))
  = [ToastSuccess "Statistical Arbitrage disabled"].
Proof.
  destruct (toggle_toast_announces_new_state "arbitrage"
              (mkWorld Strategies.initialPage []))
    as (s' & Hfind & Htoasts).
  - cbn. right. left. reflexivity.
  - cbn in Hfind. injection Hfind as <-. exact Htoasts.
Defined.

(** X16. Toggling with an id that no strategy carries changes nothing and
    shows nothing: the list is mapped onto itself, and the handler ends
    with the error thrown on reading the name of the strategy it did not
    find. *)
Theorem toggle_unknown_strategy_throws (strategyId : string)
    (w : World Strategies.Page) :
  ~ In strategyId (map Strategies.id (Strategies.strategies (state w))) ->
  state (Strategies.afterToggle strategyId w) = state w
  /\ toasts (Strategies.afterToggle strategyId w) = toasts w
  /\ exists error,
       snd (Strategies.handleToggleStrategy
              (Strategies.strategies (state w)) strategyId w)
       = Thrown error.
Proof.
  intros Hunknown.
  destruct (StrategiesRuns.toggleStrategy_unknown _ _ Hunknown)
    as (Hsame & Hfind).
  split; [| split].
  - rewrite StrategiesFacts.afterToggle_state, Hsame.
    apply StrategiesRuns.page_eta.
  - unfold Strategies.afterToggle, Strategies.handleToggleStrategy, bind,
      Strategies.setStrategies, modify.
    rewrite Hfind. reflexivity.
  - unfold Strategies.handleToggleStrategy, bind,
      Strategies.setStrategies, modify.
    rewrite Hfind. eexists. reflexivity.
Qed.

Lemma toggle_unknown_strategy_throws_witness :
  state (Strategies.afterToggle "momentum" (mkWorld Strategies.initialPage []))
  = Strategies.initialPage
  /\ toasts (Strategies.afterToggle "momentum"
               (mkWorld Strategies.initialPage [])) = [].
Proof.
  destruct (toggle_unknown_strategy_throws "momentum"
              (mkWorld Strategies.initialPage []))
    as (Hstate & Htoasts & _).
  - cbn. intros [H | [H | []]]; discriminate H.
  - split; [exact Hstate | exact Htoasts].
Defined.

Module StrategiesReach.
Import Strategies.

Lemma fixedPart_sentiment (s : Strategy) :
  fixedPart s = fixedPart sentiment ->
  id s = "sentiment"
  /\ map fst (settings s)
     = ["minConfidence"; "sentimentThreshold"; "momentumWindow";
        "volumeThreshold"; "maxCorrelation"].
Proof.
  unfold fixedPart. intros Heq. injection Heq as Hid _ _ _ Hkeys.
  split; assumption.
Qed.

Lemma fixedPart_arbitrage (s : Strategy) :
  fixedPart s = fixedPart arbitrage ->
  id s = "arbitrage"
  /\ map fst (settings s)
     = ["minCorrelation"; "zscoreThreshold"; "lookbackDays";
        "minDataPoints"; "maxPositionCorrelation"].
Proof.
  unfold fixedPart. intros Heq. injection Heq as Hid _ _ _ Hkeys.
  split; assumption.
Qed.

(** The shape every reachable page has. *)
Lemma reachable_shape (w : World Page) :
  UIReachable w ->
  exists s1 s2,
    strategies (state w) = [s1; s2]
    /\ fixedPart s1 = fixedPart sentiment
    /\ fixedPart s2 = fixedPart arbitrage
    /\ allocation s1 + allocation s2 = 100
    /\ 0 <= allocation s1 <= 100
    /\ (selectedStrategy (state w) = "sentiment"
        \/ selectedStrategy (state w) = "arbitrage").
Proof.
  induction 1 as [| w w' _ IH Hstep].
  - exists sentiment, arbitrage. cbn. repeat split; try lia. left. reflexivity.
  - destruct IH as (s1 & s2 & Hlist & Hfix1 & Hfix2 & Hsum & Hrange & Hsel).
    destruct (fixedPart_sentiment s1 Hfix1) as (Hid1 & Hkeys1).
    destruct (fixedPart_arbitrage s2 Hfix2) as (Hid2 & Hkeys2).
    assert (H1s : (id s1 =? "sentiment")%string = true)
      by (rewrite Hid1; reflexivity).
    assert (H1a : (id s1 =? "arbitrage")%string = false)
      by (rewrite Hid1; reflexivity).
    assert (H2s : (id s2 =? "sentiment")%string = false)
      by (rewrite Hid2; reflexivity).
    assert (H2a : (id s2 =? "arbitrage")%string = true)
      by (rewrite Hid2; reflexivity).
    destruct Hstep as [w s Hin | w s value Hin Hon Hvalue | w s Hin
                      | w strategyId setting value Hoffered | w].
    + (* the switch of a card *)
      rewrite StrategiesFacts.afterToggle_state.
      cbn [strategies selectedStrategy].
      rewrite Hlist in *. unfold toggleStrategy. cbn [map].
      assert (Hs : id s = "sentiment" \/ id s = "arbitrage").
      { destruct Hin as [<- | [<- | []]]; [left | right]; assumption. }
      destruct Hs as [-> | ->]; rewrite ?H1s, ?H1a, ?H2s, ?H2a;
        eexists; eexists; (split; [reflexivity |]);
        unfold fixedPart in *; cbn [id name description performance settings
                                     allocation];
        repeat split; assumption || lia.
    + (* the allocation slider of a card *)
      rewrite StrategiesFacts.afterAllocationChange_state.
      cbn [strategies selectedStrategy].
      rewrite Hlist in *. unfold changeAllocation. cbv zeta.
      rewrite (toBinary64_small (100 - value))
        by (change (2 ^ 53) with 9007199254740992; lia).
      cbn [map].
      assert (Hs : id s = "sentiment" \/ id s = "arbitrage").
      { destruct Hin as [<- | [<- | []]]; [left | right]; assumption. }
      destruct Hs as [-> | ->]; rewrite ?H1s, ?H1a, ?H2s, ?H2a;
        eexists; eexists; (split; [reflexivity |]);
        unfold fixedPart in *; cbn [id name description performance settings
                                     allocation];
        repeat split; assumption || lia.
    + (* the Configure button of a card *)
      cbn [fst setSelectedStrategy modify state strategies selectedStrategy].
      exists s1, s2. repeat split; try assumption; try lia.
      rewrite Hlist in Hin.
      destruct Hin as [<- | [<- | []]]; [left | right]; assumption.
    + (* a control of the Settings tab *)
      rewrite StrategiesRuns.afterSettingChange_state.
      cbn [strategies selectedStrategy].
      rewrite Hlist. unfold changeSetting. cbn [map].
      assert (Hpair :
        (strategyId = "sentiment" /\ In setting (map fst (settings s1)))
        \/ (strategyId = "arbitrage" /\ In setting (map fst (settings s2)))).
      { rewrite Hkeys1, Hkeys2.
        destruct Hsel as [Hs | Hs]; rewrite Hs in Hoffered;
          cbn in Hoffered;
          repeat (destruct Hoffered as [Hoffered | Hoffered];
                  [injection Hoffered as <- <-; cbn; tauto |]);
          contradiction. }
      destruct Hpair as [(-> & Hkey) | (-> & Hkey)];
        rewrite ?H1s, ?H1a, ?H2s, ?H2a;
        eexists; eexists; (split; [reflexivity |]);
        unfold fixedPart in *; cbn [id name description performance settings
                                     allocation];
        rewrite ?(StrategiesRuns.setKey_keeps_keys _ _ _ Hkey);
        repeat split; assumption || lia.
    + (* Save All Settings *)
      cbn [fst saveSettings toast_success toast state].
      exists s1, s2. repeat split; assumption || lia.
Qed.

End StrategiesReach.

(** X14. However the page is used (switches, allocation sliders, Configure
    buttons, the controls of the Settings tab, Save), it keeps its two
    strategies in place with their ids, names, descriptions, performance
    figures and setting names; the two allocations stay between 0 and 100
    and add up to 100; and the strategy selected for configuration always
    exists. *)
Theorem strategies_page_invariants (w : World Strategies.Page) :
  Strategies.UIReachable w ->
  map Strategies.fixedPart (Strategies.strategies (state w))
  = map Strategies.fixedPart [Strategies.sentiment; Strategies.arbitrage]
  /\ Strategies.totalAllocation (Strategies.strategies (state w)) = 100
  /\ Forall (fun s => 0 <= Strategies.allocation s <= 100)
       (Strategies.strategies (state w))
  /\ exists s, Strategies.currentStrategy (state w) = Some s
               /\ Strategies.id s = Strategies.selectedStrategy (state w).
Proof.
  intros Hreach.
  destruct (StrategiesReach.reachable_shape w Hreach)
    as (s1 & s2 & Hlist & Hfix1 & Hfix2 & Hsum & Hrange & Hsel).
  destruct (StrategiesReach.fixedPart_sentiment s1 Hfix1) as (Hid1 & _).
  destruct (StrategiesReach.fixedPart_arbitrage s2 Hfix2) as (Hid2 & _).
  unfold Strategies.currentStrategy. rewrite Hlist.
  split; [| split; [| split]].
  - cbn [map]. rewrite Hfix1, Hfix2. reflexivity.
  - unfold Strategies.totalAllocation. cbn [fold_right]. lia.
  - repeat constructor; lia.
  - cbn [find]. rewrite Hid1, Hid2.
    destruct Hsel as [-> | ->]; cbn [String.eqb Ascii.eqb Bool.eqb andb].
    + exists s1. split; [reflexivity | exact Hid1].
    + exists s2. split; [reflexivity | exact Hid2].
Qed.

Lemma strategies_page_invariants_witness :
  let w1 := Strategies.afterAllocationChange "sentiment" 35
              (mkWorld Strategies.initialPage []) in
  let w2 := fst (Strategies.setSelectedStrategy "arbitrage" w1) in
  let w3 := Strategies.afterSettingChange "arbitrage" "zscoreThreshold" (25 # 10) w2 in
  Strategies.UIReachable w3
  /\ map Strategies.allocation (Strategies.strategies (state w3)) = [35; 65]
  /\ Strategies.totalAllocation (Strategies.strategies (state w3)) = 100.
Proof.
  cbv zeta.
  assert (Hreach :
    Strategies.UIReachable
      (Strategies.afterSettingChange "arbitrage" "zscoreThreshold" (25 # 10)
         (fst (Strategies.setSelectedStrategy "arbitrage"
                 (Strategies.afterAllocationChange "sentiment" 35
                    (mkWorld Strategies.initialPage [])))))).
  { eapply Strategies.ui_then.
    - eapply Strategies.ui_then.
      + eapply Strategies.ui_then.
        * apply Strategies.ui_mounted.
        * apply (Strategies.ui_allocation _ Strategies.sentiment 35).
          -- left. reflexivity.
          -- reflexivity.
          -- lia.
      + apply (Strategies.ui_configure _
                 (Strategies.mkStrategy "arbitrage"
                    (Strategies.name Strategies.arbitrage)
                    (Strategies.description Strategies.arbitrage)
                    true 65
                    (Strategies.performance Strategies.arbitrage)
                    (Strategies.settings Strategies.arbitrage))).
        right. left. reflexivity.
    - apply Strategies.ui_setting. cbn. right. left. reflexivity. }
  split; [exact Hreach |]. split; [reflexivity |].
  exact (proj1 (proj2 (strategies_page_invariants _ Hreach))).
Defined.
